(** * CryptoPulse-Sentinel: a shallow embedding of [sentinel.py]

    The program keeps two pandas data frames in an object
    ([self.data], [self.anomalies]), derives rolling statistics of the
    intrabar price range and selects the bars whose z-score and volume both
    exceed a threshold.

    Modelling choices, all visible in the definitions below:
    - a float64 cell is one of the IEEE 754 special values [NaN], [PInf],
      [NInf] or a finite value carried as an exact rational, kept in lowest
      terms ([Qred]); the special-value rules of the arithmetic and of the
      comparisons are the IEEE ones numpy applies;
    - a data frame is an index (the timestamps) and a finite map from column
      names to columns; the names are plain strings, so a frame with a
      two-level column index is outside the model;
    - data frames live in a store and are referred to by location, so that
      [copy], column assignment and attribute assignment have the aliasing
      behaviour of the Python objects;
    - a method is a function from the state of the interpreter to a result
      (a value or a raised exception) and a new state.

    What the exact cells leave out.  A finite cell is not rounded, does not
    overflow and has one zero without a sign, and the rolling deviation is
    the two-pass sample deviation of the window, where pandas updates a
    running mean and a running sum of squares in binary64.  The statements
    over these cells are therefore kept to what does not depend on rounding:
    which cells are NaN or infinite and why, which comparisons a NaN fails,
    the windows, the order of the exceptions, the aliasing and the events.
    In particular no sign is claimed for a quotient by zero, and no bound is
    claimed for a z-score.  Where rounding decides what the program does,
    the facts are computed in the module [Binary64] on binary64 numbers,
    with the running algorithms of pandas. *)

From Stdlib Require Import QArith Lqa Ascii.
From Stdlib Require PrimFloat Uint63.
From stdpp Require Import gmap strings list sorting pretty.

Close Scope Q_scope.
Local Open Scope Z_scope.

(** ** float64 cells *)

Module Float.

Inductive float64 : Type :=
  | NaN
  | PInf
  | NInf
  | Fin (q : Q).

Definition is_nan (x : float64) : bool :=
  match x with NaN => true | _ => false end.

Definition is_inf (x : float64) : bool :=
  match x with PInf | NInf => true | _ => false end.

(** Sign of a rational, read off its numerator. *)
Definition Qsgn (q : Q) : comparison := Qnum q ?= 0.

Definition neg (x : float64) : float64 :=
  match x with
  | NaN => NaN
  | PInf => NInf
  | NInf => PInf
  | Fin q => Fin (- q)%Q
  end.

Definition add (x y : float64) : float64 :=
  match x, y with
  | NaN, _ | _, NaN => NaN
  | PInf, NInf | NInf, PInf => NaN
  | PInf, _ | _, PInf => PInf
  | NInf, _ | _, NInf => NInf
  | Fin a, Fin b => Fin (Qred (a + b))
  end.

Definition sub (x y : float64) : float64 := add x (neg y).

Definition mul (x y : float64) : float64 :=
  match x, y with
  | NaN, _ | _, NaN => NaN
  | Fin a, Fin b => Fin (Qred (a * b))
  | PInf, PInf | NInf, NInf => PInf
  | PInf, NInf | NInf, PInf => NInf
  | PInf, Fin b | Fin b, PInf =>
      match Qsgn b with Eq => NaN | Gt => PInf | Lt => NInf end
  | NInf, Fin b | Fin b, NInf =>
      match Qsgn b with Eq => NaN | Gt => NInf | Lt => PInf end
  end.

(** numpy division: a zero divisor raises nothing, [x / 0] is an infinity
    and [0 / 0] is NaN.  The zero of the model has no sign: the infinity is
    given the sign of [x], where numpy gives the opposite one for a divisor
    of [-0.0]; the statements over all batches claim no sign. *)
Definition div (x y : float64) : float64 :=
  match x, y with
  | NaN, _ | _, NaN => NaN
  | (PInf | NInf), (PInf | NInf) => NaN
  | Fin _, (PInf | NInf) => Fin 0%Q
  | PInf, Fin b => match Qsgn b with Lt => NInf | _ => PInf end
  | NInf, Fin b => match Qsgn b with Lt => PInf | _ => NInf end
  | Fin a, Fin b =>
      match Qsgn b with
      | Eq => match Qsgn a with Eq => NaN | Gt => PInf | Lt => NInf end
      | _ => Fin (Qred (a / b))
      end
  end.

(** [x > y]; every comparison with NaN is false. *)
Definition gt (x y : float64) : bool :=
  match x, y with
  | NaN, _ | _, NaN => false
  | PInf, PInf => false
  | PInf, _ => true
  | _, PInf => false
  | NInf, _ => false
  | Fin _, NInf => true
  | Fin a, Fin b => match (b ?= a)%Q with Lt => true | _ => false end
  end.

(** Square root of a rational, rounded up to [sqrt_bits] binary digits after
    the point of [sqrt (n * d) / d]; exact on squares, zero only at zero. *)
Definition sqrt_bits : Z := 53.

Definition Qsqrt (q : Q) : Q :=
  let n := Qnum q in
  let d := Z.pos (Qden q) in
  if n <=? 0 then 0%Q
  else Qred (Qmake (Z.sqrt_up (n * d * 4 ^ sqrt_bits))
                   (Z.to_pos (d * 2 ^ sqrt_bits))).

(** pandas' [zsqrt]: the root, with negative arguments sent to zero. *)
Definition zsqrt (x : float64) : float64 :=
  match x with
  | NaN => NaN
  | PInf => PInf
  | NInf => Fin 0%Q
  | Fin q => Fin (Qsqrt q)
  end.

End Float.

Export Float.

(** ** Series and data frames *)

Abbreviation Series := (list float64).

(** Element-wise arithmetic and comparison of two columns of one frame, and
    of a column with a scalar. *)
Definition series_sub (a b : Series) : Series := zip_with sub a b.
Definition series_div (a b : Series) : Series := zip_with div a b.
Definition series_mul_scalar (a : Series) (k : float64) : Series :=
  (λ x, mul x k) <$> a.
Definition series_gt (a b : Series) : list bool := zip_with gt a b.
Definition series_gt_scalar (a : Series) (k : float64) : list bool :=
  (λ x, gt x k) <$> a.
Definition mask_and (a b : list bool) : list bool := zip_with andb a b.

(** *** Rolling windows

    [Series.rolling(window=w)] with pandas' defaults: the window of position
    [i] is the slice of the [w] positions ending at [i], cut at the start of
    the series; [min_periods] is [w]; an infinite cell is turned into NaN
    before the statistic is computed and NaN cells are not observations; a
    statistic is NaN when its window holds fewer than [min_periods]
    observations. *)

Record Rolling : Type := MkRolling { r_obj : Series; r_window : nat }.

Definition observation (x : float64) : option Q :=
  match x with Fin q => Some q | _ => None end.

Definition window_at (w i : nat) (xs : Series) : Series :=
  drop (i + 1 - w)%nat (take (i + 1)%nat xs).

Definition observations (w i : nat) (xs : Series) : list Q :=
  omap observation (window_at w i xs).

Definition Qsum (l : list Q) : Q := foldr (λ x acc, Qred (x + acc)) 0%Q l.

Definition Qnobs (l : list Q) : Q := inject_Z (Z.of_nat (length l)).

Definition Qmean (l : list Q) : Q := Qred (Qsum l / Qnobs l).

(** Sum of the squared differences from the mean. *)
Definition ssqdm (l : list Q) : Q :=
  Qsum ((λ x, (x - Qmean l) * (x - Qmean l))%Q <$> l).

Definition roll_mean (minp : nat) (obs : list Q) : float64 :=
  if (minp <=? length obs)%nat && (0 <? length obs)%nat
  then Fin (Qmean obs) else NaN.

Definition roll_var (minp ddof : nat) (obs : list Q) : float64 :=
  if (minp <=? length obs)%nat && (ddof <? length obs)%nat
  then Fin (Qred (ssqdm obs / (Qnobs obs - inject_Z (Z.of_nat ddof)))) else NaN.

Definition Rolling_mean (r : Rolling) : Series :=
  imap (λ i _, roll_mean (r_window r) (observations (r_window r) i (r_obj r)))
       (r_obj r).

(** [std] is the sample standard deviation: [ddof = 1]. *)
Definition Rolling_std (r : Rolling) : Series :=
  imap (λ i _, zsqrt (roll_var (r_window r) 1
                        (observations (r_window r) i (r_obj r))))
       (r_obj r).

(** *** Frames *)

Record DataFrame : Type := MkFrame {
  index : list Z;
  columns : gmap string (list float64)
}.

(** [pd.DataFrame()] *)
Definition empty_frame : DataFrame := MkFrame [] ∅.

(** [DataFrame.empty]: some axis has length zero. *)
Definition frame_empty (df : DataFrame) : bool :=
  bool_decide (length (index df) = 0%nat) || bool_decide (size (columns df) = 0%nat).

Definition set_column (c : string) (xs : Series) (df : DataFrame) : DataFrame :=
  MkFrame (index df) (<[c := xs]> (columns df)).

(** Boolean indexing keeps the positions at which the mask is [true]. *)
Definition select {A} (mask : list bool) (xs : list A) : list A :=
  (filter (λ p, p.1 = true) (zip mask xs)).*2.

Definition select_rows (mask : list bool) (df : DataFrame) : DataFrame :=
  MkFrame (select mask (index df)) (select mask <$> columns df).

(** ** The interpreter state *)

Definition loc := nat.

Inductive exn : Type :=
  | KeyError (key : string)
  | ValueError (msg : string)
  | ConnectionError (msg : string)
  | DanglingReference (l : loc).

Inductive Result (A : Type) : Type :=
  | Ok (a : A)
  | Raise (e : exn).
Arguments Ok {A} a.
Arguments Raise {A} e.

Inductive event : Type :=
  | Stdout (line : string)
  | ToCsv (filename : string) (df : DataFrame)
  | ToJson (filename : string) (df : DataFrame).

(** The store of frames, the three attributes of the sentinel object and
    what was printed and written so far (latest first). *)
Record state : Type := MkState {
  heap : gmap loc DataFrame;
  self_ticker : string;
  self_data : loc;
  self_anomalies : loc;
  trace : list event
}.

Definition set_heap (h : gmap loc DataFrame) (s : state) : state :=
  MkState h (self_ticker s) (self_data s) (self_anomalies s) (trace s).
Definition set_self_data (l : loc) (s : state) : state :=
  MkState (heap s) (self_ticker s) l (self_anomalies s) (trace s).
Definition set_self_anomalies (l : loc) (s : state) : state :=
  MkState (heap s) (self_ticker s) (self_data s) l (trace s).
Definition set_trace (t : list event) (s : state) : state :=
  MkState (heap s) (self_ticker s) (self_data s) (self_anomalies s) t.

(** *** The monad of methods *)

Definition M (A : Type) : Type := state → Result A * state.

#[global] Instance M_ret : MRet M := λ A a s, (Ok a, s).

#[global] Instance M_bind : MBind M := λ A B f m s,
  match m s with
  | (Ok a, s') => f a s'
  | (Raise e, s') => (Raise e, s')
  end.

Definition raise {A} (e : exn) : M A := λ s, (Raise e, s).

Definition gets {A} (f : state → A) : M A := λ s, (Ok (f s), s).

Definition modify (f : state → state) : M unit := λ s, (Ok tt, f s).

(** *** Objects *)

Definition alloc (df : DataFrame) : M loc := λ s,
  let l := fresh (dom (heap s)) in (Ok l, set_heap (<[l := df]> (heap s)) s).

Definition deref (l : loc) : M DataFrame := λ s,
  match heap s !! l with
  | Some df => (Ok df, s)
  | None => (Raise (DanglingReference l), s)
  end.

(** [df.copy()] *)
Definition copy (l : loc) : M loc := df ← deref l; alloc df.

(** [df[c]] *)
Definition getitem (l : loc) (c : string) : M Series :=
  df ← deref l;
  match columns df !! c with
  | Some xs => mret xs
  | None => raise (KeyError c)
  end.

(** [df[c] = xs], in place. *)
Definition setitem (l : loc) (c : string) (xs : Series) : M unit :=
  df ← deref l;
  modify (λ s, set_heap (<[l := set_column c xs df]> (heap s)) s).

(** [df[mask]], a new frame. *)
Definition getitem_mask (l : loc) (mask : list bool) : M loc :=
  df ← deref l; alloc (select_rows mask df).

(** [xs.rolling(window=w)]; pandas refuses a negative window. *)
Definition rolling (xs : Series) (window : Z) : M Rolling :=
  if window <? 0 then raise (ValueError "window must be an integer 0 or greater")
  else mret (MkRolling xs (Z.to_nat window)).

Definition print (line : string) : M unit :=
  modify (λ s, set_trace (Stdout line :: trace s) s).

Definition emit (e : event) : M unit :=
  modify (λ s, set_trace (e :: trace s) s).

(** ** The program *)

Module CryptoPulseSentinel.

(** [__init__]: the two attributes are two distinct empty frames. *)
Definition init (ticker : string) : state :=
  MkState (<[1%nat := empty_frame]> (<[0%nat := empty_frame]> ∅)) ticker 0%nat 1%nat [].

(** *** Module 1: data ingestion

    [download] stands for [yf.download]: the feed provider, given the ticker,
    the period and the interval, returns a frame. *)
Definition fetch_market_data (download : string → string → string → DataFrame)
    (period interval : string) : M loc :=
  ticker ← gets self_ticker;
  print ("[*] BrilionX Sentinel: Ingesting live feed for " +:+ ticker +:+ "...");;
  l ← alloc (download ticker period interval);
  modify (set_self_data l);;
  data ← gets self_data;
  df ← deref data;
  if frame_empty df then raise (ConnectionError "Failed to retrieve market data.")
  else gets self_data.

Definition default_period : string := "2d".
Definition default_interval : string := "1m".

(** *** Module 2: metrics *)
Definition _calculate_metrics (window : Z) : M loc :=
  data ← gets self_data;
  df ← copy data;
  high ← getitem df "High";
  low ← getitem df "Low";
  low' ← getitem df "Low";
  setitem df "needle_pct" (series_div (series_sub high low) low');;
  needle ← getitem df "needle_pct";
  r ← rolling needle window;
  setitem df "rolling_mean" (Rolling_mean r);;
  needle ← getitem df "needle_pct";
  r ← rolling needle window;
  setitem df "rolling_std" (Rolling_std r);;
  needle ← getitem df "needle_pct";
  mean ← getitem df "rolling_mean";
  std ← getitem df "rolling_std";
  setitem df "z_score" (series_div (series_sub needle mean) std);;
  mret df.

Definition default_window : Z := 30.

(** *** Module 3: identification *)
Definition identify_fat_fingers (z_threshold vol_multiplier : float64) : M loc :=
  df ← _calculate_metrics default_window;
  volume ← getitem df "Volume";
  r ← rolling volume 30;
  let avg_vol := Rolling_mean r in
  z ← getitem df "z_score";
  volume ← getitem df "Volume";
  let mask := mask_and (series_gt_scalar z z_threshold)
                       (series_gt volume (series_mul_scalar avg_vol vol_multiplier)) in
  selected ← getitem_mask df mask;
  a ← copy selected;
  modify (set_self_anomalies a);;
  gets self_anomalies.

Definition default_z_threshold : float64 := Fin 8.
Definition default_vol_multiplier : float64 := Fin 5.

(** *** Module 4: export

    [now] is [datetime.now().strftime("%Y%m%d_%H%M%S")], read from the
    clock of the machine. *)
Fixpoint replace_char (a b : Ascii.ascii) (s : string) : string :=
  match s with
  | EmptyString => EmptyString
  | String c r => String (if decide (c = a) then b else c) (replace_char a b r)
  end.

Definition export_report (now : string) (format : string) : M unit :=
  a ← gets self_anomalies;
  df ← deref a;
  if frame_empty df then
    print "[!] No fat-finger anomalies detected. Export cancelled."
  else
    ticker ← gets self_ticker;
    let filename := "Sentinel_Audit_" +:+ replace_char "-"%char "_"%char ticker +:+ "_"
                    +:+ now +:+ "." +:+ format in
    (if decide (format = "csv") then emit (ToCsv filename df)
     else if decide (format = "json") then emit (ToJson filename df)
     else mret tt);;
    print ("[✓] BrilionX Audit Report generated: " +:+ filename).

Definition default_format : string := "csv".

End CryptoPulseSentinel.

Import CryptoPulseSentinel.

(** ** What a run leaves in the store

    The frames the methods build, as functions of the frame [self.data]
    refers to; the lemmas of the next part show that the methods compute
    them. *)

Definition needle_series (high low : Series) : Series :=
  series_div (series_sub high low) low.

Definition z_series (w : nat) (needle : Series) : Series :=
  series_div (series_sub needle (Rolling_mean (MkRolling needle w)))
             (Rolling_std (MkRolling needle w)).

Definition with_needle (high low : Series) (df : DataFrame) : DataFrame :=
  set_column "needle_pct" (needle_series high low) df.

Definition with_metrics (w : nat) (high low : Series) (df : DataFrame) : DataFrame :=
  let needle := needle_series high low in
  set_column "z_score" (z_series w needle)
    (set_column "rolling_std" (Rolling_std (MkRolling needle w))
      (set_column "rolling_mean" (Rolling_mean (MkRolling needle w))
        (with_needle high low df))).

Definition avg_vol_series (volume : Series) : Series :=
  Rolling_mean (MkRolling volume 30).

Definition fat_finger_mask (z volume : Series) (z_threshold vol_multiplier : float64)
    : list bool :=
  mask_and (series_gt_scalar z z_threshold)
           (series_gt volume (series_mul_scalar (avg_vol_series volume) vol_multiplier)).

(** The value or the exception of a run, with the frame a returned
    reference points to. *)
Definition outcome (r : Result loc * state) : Result (option DataFrame) :=
  match r.1 with
  | Ok l => Ok (heap r.2 !! l)
  | Raise e => Raise e
  end.

(** *** Well-formed input *)

(** Every column of a frame has one cell per index entry. *)
Definition wf_frame (df : DataFrame) : Prop :=
  map_Forall (λ _ xs, length xs = length (index df)) (columns df).

(** [self.data] refers to the frame [df], which has the price columns. *)
Definition holds_data (s : state) (df : DataFrame) : Prop :=
  heap s !! self_data s = Some df ∧ wf_frame df ∧
  is_Some (columns df !! "High") ∧ is_Some (columns df !! "Low").

(** ... and the volume column, which the detector reads. *)
Definition holds_market_data (s : state) (df : DataFrame) : Prop :=
  holds_data s df ∧ is_Some (columns df !! "Volume").

(** *** Order on cells

    [x] is strictly below [y]; NaN is below and above nothing. *)
Inductive float_lt : float64 → float64 → Prop :=
  | lt_fin a b : (a < b)%Q → float_lt (Fin a) (Fin b)
  | lt_fin_pinf a : float_lt (Fin a) PInf
  | lt_ninf_fin b : float_lt NInf (Fin b)
  | lt_ninf_pinf : float_lt NInf PInf.

Definition defined (x : float64) : Prop := x ≠ NaN.

(** The positions a mask keeps, in increasing order, and the cells of a
    column at given positions. *)
Definition kept (mask : list bool) : list nat :=
  filter (λ i, mask !! i = Some true) (seq 0 (length mask)).

Definition cells_at {A} (pos : list nat) (xs : list A) : list A :=
  omap (λ i, xs !! i) pos.

Definition derived_columns : list string :=
  ["needle_pct"; "rolling_mean"; "rolling_std"; "z_score"].

(** The frame [a] holds the rows of [m] at the positions [pos], in the order
    of [pos]. *)
Definition rows_at (pos : list nat) (m a : DataFrame) : Prop :=
  index a = cells_at pos (index m) ∧
  ∀ c, columns a !! c = cells_at pos <$> columns m !! c.

(** Position [i] passes the detector: its z-score is above the threshold and
    its volume is above the multiple of the rolling mean of the volume. *)
Definition passes (z_threshold vol_multiplier : float64) (z volume : Series)
    (i : nat) : Prop :=
  ∃ zi vi ai,
    z !! i = Some zi ∧ volume !! i = Some vi ∧
    avg_vol_series volume !! i = Some ai ∧
    float_lt z_threshold zi ∧ float_lt (mul ai vol_multiplier) vi.

(** What the two methods return for the frame [self.data] refers to,
    whatever the locations. *)
Definition metrics_outcome (window : Z) (df : DataFrame) : Result (option DataFrame) :=
  match columns df !! "High" with
  | None => Raise (KeyError "High")
  | Some high =>
      match columns df !! "Low" with
      | None => Raise (KeyError "Low")
      | Some low =>
          if window <? 0
          then Raise (ValueError "window must be an integer 0 or greater")
          else Ok (Some (with_metrics (Z.to_nat window) high low df))
      end
  end.

Definition anomalies_outcome (z_threshold vol_multiplier : float64) (df : DataFrame)
    : Result (option DataFrame) :=
  match columns df !! "High" with
  | None => Raise (KeyError "High")
  | Some high =>
      match columns df !! "Low" with
      | None => Raise (KeyError "Low")
      | Some low =>
          match columns df !! "Volume" with
          | None => Raise (KeyError "Volume")
          | Some volume =>
              Ok (Some (select_rows
                          (fat_finger_mask (z_series 30 (needle_series high low))
                             volume z_threshold vol_multiplier)
                          (with_metrics 30 high low df)))
          end
      end
  end.

(** *** The detector of the specification

    Section 4.2 of the specification has one window size [w]: the z-score of
    section 4.1 and the trailing mean of the volume are both taken over [w].
    This is the mask of that detector. *)
Definition spec_mask (w : nat) (z_threshold vol_multiplier : float64)
    (high low volume : Series) : list bool :=
  mask_and
    (series_gt_scalar (z_series w (needle_series high low)) z_threshold)
    (series_gt volume
       (series_mul_scalar (Rolling_mean (MkRolling volume w)) vol_multiplier)).

(** The frames of the store before a run are in the store after it, unchanged
    and at their locations, and all but the store and [self.anomalies] is as
    before. *)
Definition extends (s s' : state) : Prop :=
  heap s ⊆ heap s' ∧ self_data s' = self_data s ∧
  self_ticker s' = self_ticker s ∧ trace s' = trace s.

(** The names of the files written so far. *)
Definition written (t : list event) : list string :=
  omap (λ e, match e with
             | Stdout _ => None
             | ToCsv f _ | ToJson f _ => Some f
             end) t.

(** ** The execution pipeline *)

(** [try: body except Exception as e: handler] *)
Definition try_except {A} (body : M A) (handler : exn → M A) : M A := λ s,
  match body s with
  | (Ok a, s') => (Ok a, s')
  | (Raise e, s') => handler e s'
  end.

(** [str(e)]; the text of a [KeyError] is its key between quotes. *)
Definition exn_str (e : exn) : string :=
  match e with
  | KeyError key => "'" +:+ key +:+ "'"
  | ValueError msg | ConnectionError msg => msg
  | DanglingReference _ => ""
  end.

(** [df[cols]] for a list of column names: a new frame with these columns;
    a name that is no column is a [KeyError]. *)
Definition getitem_columns (l : loc) (cols : list string) : M loc :=
  df ← deref l;
  match filter (λ c, columns df !! c = None) cols with
  | c :: _ => raise (KeyError c)
  | [] => alloc (MkFrame (index df) (filter (λ kv, kv.1 ∈ cols) (columns df)))
  end.

(** [df.tail()]: the last five rows, a new frame. *)
Definition last_rows {A} (n : nat) (xs : list A) : list A :=
  drop (length xs - n) xs.

Definition tail (l : loc) : M loc :=
  df ← deref l;
  alloc (MkFrame (last_rows 5 (index df)) (last_rows 5 <$> columns df)).

Module Script.

Definition report_header : string :=
  String "010"%char "--- Sentinel Live Monitoring Report ---".

(** Lines 87 to 95: the report on the frame the detector returned. *)
Definition report (results : loc) (render : DataFrame → string) (now : string)
    : M unit :=
  print report_header;;
  r ← deref results;
  if negb (frame_empty r) then
    print ("CRITICAL: " +:+ pretty (length (index r))
           +:+ " Fat-Finger event(s) identified!");;
    cols ← getitem_columns results ["High"; "Low"; "Volume"; "z_score"];
    last ← tail cols;
    shown ← deref last;
    print (render shown);;
    export_report now "csv"
  else
    print "Status: System Nominal. No execution errors detected.".

(** The block under [if __name__ == "__main__"].  [download] stands for
    [yf.download], [render] for the text pandas prints for a frame and [now]
    for the reading of the clock in [export_report]. *)
Definition main (download : string → string → string → DataFrame)
    (render : DataFrame → string) (now : string) : Result unit * state :=
  try_except
    (fetch_market_data download default_period default_interval;;
     results ← identify_fat_fingers (Fin 10) (Fin 6);
     report results render now)
    (λ e, print ("[System Error]: " +:+ exn_str e))
    (init "BTC-USD").

End Script.

Import Script.

(** ** More notions for stating properties *)

(** The first [n] rows of a frame. *)
Definition frame_take (n : nat) (df : DataFrame) : DataFrame :=
  MkFrame (take n (index df)) (take n <$> columns df).

(** The lines printed so far. *)
Definition printed (t : list event) : list string :=
  omap (λ e, match e with Stdout line => Some line | _ => None end) t.

(** The character [a] occurs in the string. *)
Fixpoint occurs (a : Ascii.ascii) (s : string) : Prop :=
  match s with
  | EmptyString => False
  | String c r => c = a ∨ occurs a r
  end.

(** ** The same computation in binary64

    The cells above carry exact rationals.  This module runs the numeric
    part of the two analysis methods on IEEE 754 binary64 numbers, with the
    rolling algorithms pandas uses: a running sum with Kahan compensation for
    the mean, and Welford's running mean and sum of squared differences for
    the variance, each updated by removing the cell that leaves the window
    and adding the cell that enters it.  It is used where rounding decides
    what the program does. *)

Module Binary64.

Import PrimFloat.
Local Open Scope float_scope.

Definition of_nat (n : nat) : float := of_uint63 (Uint63.of_Z (Z.of_nat n)).

(** The cells of the positions [lo], ..., [hi - 1]. *)
Definition slice (lo hi : nat) (xs : list float) : list float :=
  take (hi - lo) (drop lo xs).

(** An infinite cell counts as missing. *)
Definition clean (x : float) : float := if is_infinity x then nan else x.

(** *** The rolling mean *)

Record mean_state : Set := MkMean {
  m_nobs : nat;
  m_sum : float;
  m_neg : Z;
  m_comp_add : float;
  m_comp_remove : float;
  m_same : nat;
  m_prev : float
}.

Definition add_mean (st : mean_state) (val : float) : mean_state :=
  if val =? val then
    let y := val - m_comp_add st in
    let t := m_sum st + y in
    MkMean (S (m_nobs st)) t
      (if get_sign val then (m_neg st + 1)%Z else m_neg st)
      (t - m_sum st - y) (m_comp_remove st)
      (if val =? m_prev st then S (m_same st) else 1%nat) val
  else st.

Definition remove_mean (st : mean_state) (val : float) : mean_state :=
  if val =? val then
    let y := - val - m_comp_remove st in
    let t := m_sum st + y in
    MkMean (Nat.pred (m_nobs st)) t
      (if get_sign val then (m_neg st - 1)%Z else m_neg st)
      (m_comp_add st) (t - m_sum st - y)
      (m_same st) (m_prev st)
  else st.

Definition calc_mean (minp : nat) (st : mean_state) : float :=
  if (minp <=? m_nobs st)%nat && (0 <? m_nobs st)%nat then
    let result := m_sum st / of_nat (m_nobs st) in
    if (m_nobs st <=? m_same st)%nat then m_prev st
    else if (m_neg st =? 0)%Z && (result <? 0) then 0
    else if (m_neg st =? Z.of_nat (m_nobs st))%Z && (0 <? result) then 0
    else result
  else nan.

(** *** The rolling variance *)

Record var_state : Set := MkVar {
  v_nobs : nat;
  v_mean : float;
  v_ssqdm : float;
  v_comp_add : float;
  v_comp_remove : float;
  v_same : nat;
  v_prev : float
}.

Definition add_var (st : var_state) (val : float) : var_state :=
  if val =? val then
    let nobs := S (v_nobs st) in
    let prev_mean := v_mean st - v_comp_add st in
    let y := val - v_comp_add st in
    let t := y - v_mean st in
    let mean := v_mean st + t / of_nat nobs in
    MkVar nobs mean (v_ssqdm st + (val - prev_mean) * (val - mean))
      (t + v_mean st - y) (v_comp_remove st)
      (if val =? v_prev st then S (v_same st) else 1%nat) val
  else st.

Definition remove_var (st : var_state) (val : float) : var_state :=
  if val =? val then
    match Nat.pred (v_nobs st) with
    | O => MkVar 0%nat 0 0 (v_comp_add st) (v_comp_remove st) (v_same st) (v_prev st)
    | nobs =>
        let prev_mean := v_mean st - v_comp_remove st in
        let y := val - v_comp_remove st in
        let t := y - v_mean st in
        let mean := v_mean st - t / of_nat nobs in
        MkVar nobs mean (v_ssqdm st - (val - prev_mean) * (val - mean))
          (v_comp_add st) (t + v_mean st - y) (v_same st) (v_prev st)
    end
  else st.

Definition calc_var (minp ddof : nat) (st : var_state) : float :=
  if (minp <=? v_nobs st)%nat && (ddof <? v_nobs st)%nat then
    if (v_nobs st =? 1)%nat || (v_nobs st <=? v_same st)%nat then 0
    else v_ssqdm st / (of_nat (v_nobs st) - of_nat ddof)
  else nan.

(** *** One pass over the positions

    The window of position [i] is [window_start w i], ..., [i].  The state
    of the previous window is updated, unless the two windows do not
    overlap, in which case the state is built anew. *)

Definition window_start (w i : nat) : nat := (i + 1 - w)%nat.
Definition window_end (i : nat) : nat := (i + 1)%nat.

Fixpoint roll {St : Type} (init : float → St) (add remove : St → float → St)
    (calc : St → float) (w : nat) (values : list float) (positions : list nat)
    (st : option St) : list float :=
  match positions with
  | [] => []
  | i :: rest =>
      let s := window_start w i in
      let e := window_end i in
      let anew := foldl add (init (nth s values nan)) (slice s e values) in
      let st' :=
        match st, i with
        | Some prev, S i' =>
            if (window_end i' <=? s)%nat then anew
            else foldl add
                   (foldl remove prev (slice (window_start w i') s values))
                   (slice (window_end i') e values)
        | _, _ => anew
        end in
      calc st' :: roll init add remove calc w values rest (Some st')
  end.

Definition roll_mean (w : nat) (values : list float) : list float :=
  roll (λ v, MkMean 0%nat 0 0%Z 0 0 0%nat v) add_mean remove_mean (calc_mean w)
    w (clean <$> values) (seq 0 (length values)) None.

Definition roll_var (w : nat) (values : list float) : list float :=
  roll (λ v, MkVar 0%nat 0 0 0 0 0%nat v) add_var remove_var
    (calc_var (Nat.max w 1) 1)
    w (clean <$> values) (seq 0 (length values)) None.

(** pandas' [zsqrt]. *)
Definition zsqrt (x : float) : float := if x <? 0 then 0 else sqrt x.

Definition roll_std (w : nat) (values : list float) : list float :=
  zsqrt <$> roll_var w values.

(** *** Lines 32 to 39 and 49 to 52 of the program *)

Definition needle_pct (high low : list float) : list float :=
  zip_with div (zip_with sub high low) low.

Definition z_score (w : nat) (needle : list float) : list float :=
  zip_with div (zip_with sub needle (roll_mean w needle)) (roll_std w needle).

Definition fat_finger_mask (z_threshold vol_multiplier : float)
    (high low volume : list float) : list bool :=
  zip_with andb
    ((λ z, z_threshold <? z) <$> z_score 30 (needle_pct high low))
    (zip_with (λ v a, a * vol_multiplier <? v) volume (roll_mean 30 volume)).

(** The thresholds of the method's defaults and of the script. *)
Definition default_z_threshold : float := 8.
Definition default_vol_multiplier : float := 5.
Definition script_z_threshold : float := 10.
Definition script_vol_multiplier : float := 6.

(** *** Sample batches

    Four bars with a low of 1 and highs 1048577, 1.01, 1.01, 1.02. *)
Definition jump_high : list float :=
  [1048577; 0x1.028f5c28f5c29p+0; 0x1.028f5c28f5c29p+0; 0x1.051eb851eb852p+0].
Definition jump_low : list float := [1; 1; 1; 1].

(** The same with a last high of 1.01: the last window holds one value three
    times. *)
Definition settle_high : list float :=
  [1048577; 0x1.028f5c28f5c29p+0; 0x1.028f5c28f5c29p+0; 0x1.028f5c28f5c29p+0].

(** Sixty-four bars with a low of 1: a high of 2097153, then 1.01, 1.02,
    1.01 over and over; the volume is 10, except 1000 at position 32. *)
Definition long_high : list float :=
  2097153
  :: ((λ i, nth (i mod 3)
              [0x1.028f5c28f5c29p+0; 0x1.051eb851eb852p+0; 0x1.028f5c28f5c29p+0]
              nan) <$> seq 0 63).
Definition long_low : list float := replicate 64 1.
Definition long_volume : list float := <[32%nat := 1000]> (replicate 64 10).

End Binary64.

(** ** Sample batches *)

(** A feed of bars given as (timestamp, high, low, volume). *)
Definition feed_of (bars : list (Z * Q * Q * Q)) : DataFrame :=
  MkFrame (bars.*1.*1.*1)
    (<["High" := (λ r, Fin r.1.1.2) <$> bars]>
    (<["Low" := (λ r, Fin r.1.2) <$> bars]>
    (<["Volume" := (λ r, Fin r.2) <$> bars]> ∅))).

Definition state_of (bars : list (Z * Q * Q * Q)) : state :=
  (fetch_market_data (λ _ _ _, feed_of bars) default_period default_interval
     (init "BTC-USD")).2.

(** Thirty quiet bars, whose range alternates between 1% and 2% of the low,
    followed by one bar with a range of 50% on ten times the volume. *)
Definition quiet_bars : list (Z * Q * Q * Q) :=
  (λ i, (Z.of_nat i, (101 + inject_Z (Z.of_nat (i mod 2)))%Q, 100%Q, 10%Q))
    <$> seq 0 30.

Definition spike_bars : list (Z * Q * Q * Q) :=
  quiet_bars ++ [(30, 150%Q, 100%Q, 100%Q)].

Definition spike_state : state := state_of spike_bars.

(** Three bars, the last one a spike: a batch shorter than the window. *)
Definition short_bars : list (Z * Q * Q * Q) :=
  [(0, 101%Q, 100%Q, 10%Q); (1, 101%Q, 100%Q, 10%Q); (2, 150%Q, 100%Q, 100%Q)].

Definition short_state : state := state_of short_bars.

(** A bar whose low is zero. *)
Definition zero_low_bars : list (Z * Q * Q * Q) :=
  [(0, 1%Q, 0%Q, 10%Q)].

Definition zero_low_state : state := state_of zero_low_bars.

(** Thirty bars of one and the same range. *)
Definition flat_bars : list (Z * Q * Q * Q) :=
  (λ i, (Z.of_nat i, 101%Q, 100%Q, 10%Q)) <$> seq 0 30.

Definition flat_state : state := state_of flat_bars.

(** The spike batch after a detection run with both thresholds at 5. *)
Definition spike_detected_state : state :=
  (identify_fat_fingers (Fin 5) (Fin 5) spike_state).2.

Definition spike_anomalies : DataFrame :=
  default empty_frame
    (heap spike_detected_state !! self_anomalies spike_detected_state).

(** A feed without the volume column, and the spike batch after a detection
    run followed by a download of that feed. *)
Definition no_volume_feed : DataFrame :=
  MkFrame [0; 1] (<["High" := [Fin 101; Fin 102]]> (<["Low" := [Fin 100; Fin 100]]> ∅)).

Definition no_volume_state : state :=
  (fetch_market_data (λ _ _ _, no_volume_feed) default_period default_interval
     spike_detected_state).2.

(** The short batch after a detection run: nothing was kept. *)
Definition short_detected_state : state :=
  (identify_fat_fingers (Fin 5) (Fin 5) short_state).2.

(** The object after a download that returned nothing. *)
Definition failed_fetch_state : state :=
  (fetch_market_data (λ _ _ _, empty_frame) default_period default_interval
     spike_detected_state).2.

(** The metric frame of the spike batch, and an object that holds it as its
    data. *)
Definition spike_metrics : DataFrame :=
  match outcome (_calculate_metrics 30 spike_state) with
  | Ok (Some m) => m
  | _ => empty_frame
  end.

Definition spike_metrics_state : state :=
  (fetch_market_data (λ _ _ _, spike_metrics) default_period default_interval
     (init "BTC-USD")).2.

(** ** Runs of the primitive operations *)

Section runs.
Context {A B : Type}.
Implicit Types (k : A → M B) (s : state).

Lemma run_ret (a : A) k s : (mret a ≫= k) s = k a s.
Proof. reflexivity. Qed.

Lemma run_gets (f : state → A) k s : (gets f ≫= k) s = k (f s) s.
Proof. reflexivity. Qed.

End runs.

Section runs_unit.
Context {B : Type}.
Implicit Types (s : state).

Lemma run_modify (f : state → state) (k : unit → M B) s :
  (modify f ≫= k) s = k tt (f s).
Proof. reflexivity. Qed.

Lemma run_print line (k : unit → M B) s :
  (print line ≫= k) s = k tt (set_trace (Stdout line :: trace s) s).
Proof. reflexivity. Qed.

Lemma run_emit e (k : unit → M B) s :
  (emit e ≫= k) s = k tt (set_trace (e :: trace s) s).
Proof. reflexivity. Qed.

Lemma run_alloc df (k : loc → M B) s :
  (alloc df ≫= k) s =
  k (fresh (dom (heap s))) (set_heap (<[fresh (dom (heap s)) := df]> (heap s)) s).
Proof. reflexivity. Qed.

Lemma run_deref l df (k : DataFrame → M B) s :
  heap s !! l = Some df → (deref l ≫= k) s = k df s.
Proof. intros H. unfold mbind, M_bind, deref. by rewrite H. Qed.

Lemma run_deref_dangling l (k : DataFrame → M B) s :
  heap s !! l = None → (deref l ≫= k) s = (Raise (DanglingReference l), s).
Proof. intros H. unfold mbind, M_bind, deref. by rewrite H. Qed.

Lemma run_copy l df (k : loc → M B) s :
  heap s !! l = Some df →
  (copy l ≫= k) s =
  k (fresh (dom (heap s))) (set_heap (<[fresh (dom (heap s)) := df]> (heap s)) s).
Proof. intros H. unfold copy. unfold mbind, M_bind, deref, alloc. by rewrite H. Qed.

Lemma run_copy_dangling l (k : loc → M B) s :
  heap s !! l = None → (copy l ≫= k) s = (Raise (DanglingReference l), s).
Proof. intros H. unfold copy. unfold mbind, M_bind, deref, alloc. by rewrite H. Qed.

Lemma run_getitem l c df xs (k : Series → M B) s :
  heap s !! l = Some df → columns df !! c = Some xs →
  (getitem l c ≫= k) s = k xs s.
Proof.
  intros H Hc. unfold getitem. unfold mbind, M_bind, deref. rewrite H.
  by rewrite Hc.
Qed.

Lemma run_getitem_missing l c df (k : Series → M B) s :
  heap s !! l = Some df → columns df !! c = None →
  (getitem l c ≫= k) s = (Raise (KeyError c), s).
Proof.
  intros H Hc. unfold getitem. unfold mbind, M_bind, deref. rewrite H.
  by rewrite Hc.
Qed.

Lemma run_setitem l c xs df (k : unit → M B) s :
  heap s !! l = Some df →
  (setitem l c xs ≫= k) s =
  k tt (set_heap (<[l := set_column c xs df]> (heap s)) s).
Proof. intros H. unfold setitem. unfold mbind, M_bind, deref. by rewrite H. Qed.

Lemma run_getitem_mask l mask df (k : loc → M B) s :
  heap s !! l = Some df →
  (getitem_mask l mask ≫= k) s =
  k (fresh (dom (heap s)))
    (set_heap (<[fresh (dom (heap s)) := select_rows mask df]> (heap s)) s).
Proof.
  intros H. unfold getitem_mask. unfold mbind, M_bind, deref, alloc. by rewrite H.
Qed.

Lemma run_rolling xs w (k : Rolling → M B) s :
  0 ≤ w → (rolling xs w ≫= k) s = k (MkRolling xs (Z.to_nat w)) s.
Proof.
  intros H. unfold rolling. destruct (Z.ltb_spec w 0); [lia | done].
Qed.

Lemma run_rolling_negative xs w (k : Rolling → M B) s :
  w < 0 →
  (rolling xs w ≫= k) s =
  (Raise (ValueError "window must be an integer 0 or greater"), s).
Proof.
  intros H. unfold rolling. destruct (Z.ltb_spec w 0); [done | lia].
Qed.

End runs_unit.

Lemma fresh_heap (h : gmap loc DataFrame) : h !! fresh (dom h) = None.
Proof. apply not_elem_of_dom, is_fresh. Qed.

Lemma heap_set_heap h s : heap (set_heap h s) = h.
Proof. reflexivity. Qed.

Lemma set_heap_set_heap h h' s : set_heap h (set_heap h' s) = set_heap h s.
Proof. reflexivity. Qed.

Lemma self_data_set_heap h s : self_data (set_heap h s) = self_data s.
Proof. reflexivity. Qed.

(** ** Runs of the methods *)

(** One step of a run: the first operation of the program is performed on
    the state at hand. *)
Ltac heap_lookup :=
  cbn [heap set_heap set_self_data set_self_anomalies set_trace self_data
       self_anomalies];
  first [ eassumption | apply lookup_insert_eq ].

Ltac column_lookup :=
  cbn [columns set_column with_needle];
  repeat (first [ eassumption | apply lookup_insert_eq
                | rewrite lookup_insert_ne by discriminate ]).

Ltac run_step :=
  first
    [ rewrite run_gets
    | rewrite run_modify
    | rewrite run_ret
    | erewrite run_copy by heap_lookup
    | erewrite run_getitem by (first [ heap_lookup | column_lookup ])
    | erewrite run_setitem by heap_lookup
    | erewrite run_getitem_mask by heap_lookup
    | rewrite run_rolling by lia ];
  cbn [heap set_heap self_data self_anomalies self_ticker trace];
  rewrite ?insert_insert_eq.

Lemma calculate_metrics_run w s df high low :
  heap s !! self_data s = Some df →
  columns df !! "High" = Some high →
  columns df !! "Low" = Some low →
  0 ≤ w →
  _calculate_metrics w s =
  (Ok (fresh (dom (heap s))),
   set_heap (<[fresh (dom (heap s)) := with_metrics (Z.to_nat w) high low df]> (heap s)) s).
Proof.
  intros Hd Hh Hl Hw. unfold _calculate_metrics.
  repeat run_step. reflexivity.
Qed.

Lemma calculate_metrics_dangling w s :
  heap s !! self_data s = None →
  _calculate_metrics w s = (Raise (DanglingReference (self_data s)), s).
Proof.
  intros Hd. unfold _calculate_metrics. rewrite run_gets.
  by rewrite run_copy_dangling.
Qed.

Lemma calculate_metrics_no_high w s df :
  heap s !! self_data s = Some df →
  columns df !! "High" = None →
  _calculate_metrics w s =
  (Raise (KeyError "High"), set_heap (<[fresh (dom (heap s)) := df]> (heap s)) s).
Proof.
  intros Hd Hh. unfold _calculate_metrics. do 2 run_step.
  by erewrite run_getitem_missing by (first [ heap_lookup | column_lookup ]).
Qed.

Lemma calculate_metrics_no_low w s df high :
  heap s !! self_data s = Some df →
  columns df !! "High" = Some high →
  columns df !! "Low" = None →
  _calculate_metrics w s =
  (Raise (KeyError "Low"), set_heap (<[fresh (dom (heap s)) := df]> (heap s)) s).
Proof.
  intros Hd Hh Hl. unfold _calculate_metrics. do 3 run_step.
  by erewrite run_getitem_missing by (first [ heap_lookup | column_lookup ]).
Qed.

Lemma calculate_metrics_negative w s df high low :
  heap s !! self_data s = Some df →
  columns df !! "High" = Some high →
  columns df !! "Low" = Some low →
  w < 0 →
  _calculate_metrics w s =
  (Raise (ValueError "window must be an integer 0 or greater"),
   set_heap (<[fresh (dom (heap s)) := with_needle high low df]> (heap s)) s).
Proof.
  intros Hd Hh Hl Hw. unfold _calculate_metrics. do 7 run_step.
  by rewrite run_rolling_negative.
Qed.

Lemma run_bind {A B} (m : M A) (k : A → M B) s a s' :
  m s = (Ok a, s') → (m ≫= k) s = k a s'.
Proof. intros H. unfold mbind, M_bind. by rewrite H. Qed.

Lemma run_bind_raise {A B} (m : M A) (k : A → M B) s e s' :
  m s = (Raise e, s') → (m ≫= k) s = (Raise e, s').
Proof. intros H. unfold mbind, M_bind. by rewrite H. Qed.

Lemma identify_fat_fingers_run z_threshold vol_multiplier s df high low volume :
  heap s !! self_data s = Some df →
  columns df !! "High" = Some high →
  columns df !! "Low" = Some low →
  columns df !! "Volume" = Some volume →
  let m := with_metrics 30 high low df in
  let mask := fat_finger_mask (z_series 30 (needle_series high low)) volume
                z_threshold vol_multiplier in
  let l1 := fresh (dom (heap s)) in
  let h1 := <[l1 := m]> (heap s) in
  let l2 := fresh (dom h1) in
  let h2 := <[l2 := select_rows mask m]> h1 in
  let l3 := fresh (dom h2) in
  identify_fat_fingers z_threshold vol_multiplier s =
  (Ok l3, set_self_anomalies l3 (set_heap (<[l3 := select_rows mask m]> h2) s)).
Proof.
  intros Hd Hh Hl Hv m mask l1 h1 l2 h2 l3. unfold identify_fat_fingers.
  erewrite run_bind
    by (apply (calculate_metrics_run default_window s df high low); done).
  change (Z.to_nat default_window) with 30%nat. fold m l1 h1.
  assert (Hm : h1 !! l1 = Some m) by apply lookup_insert_eq.
  assert (Hmv : columns m !! "Volume" = Some volume).
  { unfold m, with_metrics, with_needle. column_lookup. }
  assert (Hmz : columns m !! "z_score" =
                Some (z_series 30 (needle_series high low))).
  { unfold m, with_metrics. column_lookup. }
  erewrite run_getitem by (first [ exact Hm | exact Hmv ]).
  rewrite run_rolling by lia.
  erewrite run_getitem by (first [ exact Hm | exact Hmz ]).
  erewrite run_getitem by (first [ exact Hm | exact Hmv ]).
  erewrite run_getitem_mask by exact Hm.
  cbn [heap set_heap]. fold l2.
  change (Z.to_nat 30) with 30%nat.
  fold (avg_vol_series volume).
  fold (fat_finger_mask (z_series 30 (needle_series high low)) volume
          z_threshold vol_multiplier).
  fold mask. fold h2.
  erewrite run_copy by (cbn [heap set_heap]; apply lookup_insert_eq).
  cbn [heap set_heap]. fold l3.
  reflexivity.
Qed.

Lemma identify_fat_fingers_no_volume z_threshold vol_multiplier s df high low :
  heap s !! self_data s = Some df →
  columns df !! "High" = Some high →
  columns df !! "Low" = Some low →
  columns df !! "Volume" = None →
  identify_fat_fingers z_threshold vol_multiplier s =
  (Raise (KeyError "Volume"),
   set_heap (<[fresh (dom (heap s)) := with_metrics 30 high low df]> (heap s)) s).
Proof.
  intros Hd Hh Hl Hv. unfold identify_fat_fingers.
  erewrite run_bind
    by (apply (calculate_metrics_run default_window s df high low); done).
  change (Z.to_nat default_window) with 30%nat.
  erewrite run_getitem_missing; [done | apply lookup_insert_eq |].
  unfold with_metrics, with_needle. column_lookup.
Qed.

(** ** Cells: special values and order *)

Lemma Qsgn_Eq q : Qsgn q = Eq ↔ (q == 0)%Q.
Proof.
  unfold Qsgn, Qeq. simpl. rewrite Z.compare_eq_iff. lia.
Qed.

Lemma Qsgn_Eq_Qred q : Qsgn (Qred q) = Eq ↔ (q == 0)%Q.
Proof. rewrite Qsgn_Eq. by rewrite Qred_correct. Qed.

Lemma sub_nan_r x : sub x NaN = NaN.
Proof. by destruct x. Qed.

Lemma sub_nan_l y : sub NaN y = NaN.
Proof. by destruct y. Qed.

Lemma div_nan_r x : div x NaN = NaN.
Proof. by destruct x. Qed.

Lemma div_nan_l y : div NaN y = NaN.
Proof. by destruct y. Qed.

Lemma mul_nan_l y : mul NaN y = NaN.
Proof. by destruct y. Qed.

Lemma gt_nan_l y : gt NaN y = false.
Proof. by destruct y. Qed.

Lemma gt_nan_r x : gt x NaN = false.
Proof. by destruct x. Qed.

Lemma gt_float_lt x y : gt x y = true ↔ float_lt y x.
Proof.
  destruct x as [| | |a], y as [| | |b]; simpl;
    (split; [intros H; try discriminate H; try constructor | inversion 1; try done]).
  - apply Qlt_alt. by destruct (b ?= a)%Q.
  - subst. assert (Hc : (b ?= a)%Q = Lt) by by apply Qlt_alt. by rewrite Hc.
Qed.

Lemma float_lt_defined x y : float_lt x y → defined x ∧ defined y.
Proof. by inversion 1. Qed.

Lemma fin_div_zero a b :
  (a == 0)%Q → (b == 0)%Q → div (Fin a) (Fin b) = NaN.
Proof.
  intros Ha Hb. simpl. apply Qsgn_Eq in Ha, Hb. by rewrite Ha, Hb.
Qed.

(** A zero divisor: the quotient is NaN or an infinity, never finite. *)
Lemma div_zero_not_finite x b :
  (b == 0)%Q → div x (Fin b) = NaN ∨ div x (Fin b) = PInf ∨ div x (Fin b) = NInf.
Proof.
  intros Hb. apply Qsgn_Eq in Hb. destruct x as [| | |a]; simpl; rewrite ?Hb; auto.
  destruct (Qsgn a); auto.
Qed.

Lemma observation_None x : observation x = None ↔ ∀ q, x ≠ Fin q.
Proof. destruct x; simpl; split; try done; intros H; by destruct (H q). Qed.

Lemma observation_Some x q : observation x = Some q ↔ x = Fin q.
Proof. destruct x; simpl; split; intros H; by simplify_eq. Qed.

(** ** Rolling windows *)

Lemma omap_length_le {A B} (f : A → option B) (l : list A) :
  (length (omap f l) ≤ length l)%nat.
Proof. induction l as [|a l IH]; csimpl; [|destruct (f a)]; simpl; lia. Qed.

Lemma omap_length_lt {A B} (f : A → option B) (l : list A) x :
  x ∈ l → f x = None → (length (omap f l) < length l)%nat.
Proof.
  induction l as [|a l IH]; inversion 1; subst; csimpl; intros Hx.
  - rewrite Hx. pose proof (omap_length_le f l). lia.
  - destruct (f a); simpl; specialize (IH ltac:(done) Hx); lia.
Qed.

Lemma omap_length_full {A B} (f : A → option B) (l : list A) x :
  (length l ≤ length (omap f l))%nat → x ∈ l → is_Some (f x).
Proof.
  intros Hlen Hx. destruct (f x) eqn:Hf; [by eexists|].
  pose proof (omap_length_lt f l x Hx Hf). lia.
Qed.

Lemma window_at_length w i xs :
  (length (window_at w i xs) ≤ w ∧ length (window_at w i xs) ≤ i + 1)%nat.
Proof. unfold window_at. rewrite length_drop, length_take. lia. Qed.

Lemma observations_length w i xs :
  (length (observations w i xs) ≤ w ∧ length (observations w i xs) ≤ i + 1)%nat.
Proof.
  unfold observations.
  pose proof (omap_length_le observation (window_at w i xs)).
  pose proof (window_at_length w i xs). lia.
Qed.

(** The window of a position ends at that position. *)
Lemma window_at_current w i xs x :
  xs !! i = Some x → (0 < w)%nat → x ∈ window_at w i xs.
Proof.
  intros Hx Hw. unfold window_at. apply list_elem_of_lookup.
  exists (i - (i + 1 - w))%nat.
  rewrite lookup_drop, lookup_take_lt by lia.
  by replace (i + 1 - w + (i - (i + 1 - w)))%nat with i by lia.
Qed.

(** No cell after the position is in its window. *)
Lemma window_at_no_lookahead w i xs ys :
  take (i + 1) xs = take (i + 1) ys → window_at w i xs = window_at w i ys.
Proof. unfold window_at. by intros ->. Qed.

Lemma roll_mean_short minp obs :
  (length obs < minp ∨ length obs = 0)%nat → roll_mean minp obs = NaN.
Proof.
  intros H. unfold roll_mean.
  destruct (Nat.leb_spec minp (length obs)), (Nat.ltb_spec 0 (length obs));
    simpl; try done; lia.
Qed.

Lemma roll_var_short minp ddof obs :
  (length obs < minp ∨ length obs ≤ ddof)%nat → roll_var minp ddof obs = NaN.
Proof.
  intros H. unfold roll_var.
  destruct (Nat.leb_spec minp (length obs)), (Nat.ltb_spec ddof (length obs));
    simpl; try done; lia.
Qed.

Lemma roll_mean_full minp obs :
  (minp ≤ length obs)%nat → (0 < length obs)%nat →
  roll_mean minp obs = Fin (Qmean obs).
Proof.
  intros H1 H2. unfold roll_mean.
  destruct (Nat.leb_spec minp (length obs)), (Nat.ltb_spec 0 (length obs));
    simpl; try done; lia.
Qed.

(** A cell that is not finite is no observation: its window is short. *)
Lemma observations_not_finite w i xs x :
  xs !! i = Some x → observation x = None →
  (length (observations w i xs) < w ∨ length (observations w i xs) = 0)%nat.
Proof.
  intros Hx Hobs. destruct w as [|w].
  - right. pose proof (observations_length 0 i xs). lia.
  - left. unfold observations.
    pose proof (window_at_current (S w) i xs x Hx ltac:(lia)) as Hin.
    pose proof (omap_length_lt observation _ x Hin Hobs).
    pose proof (window_at_length (S w) i xs). lia.
Qed.

Lemma Rolling_mean_lookup w xs i :
  Rolling_mean (MkRolling xs w) !! i =
  (λ _, roll_mean w (observations w i xs)) <$> xs !! i.
Proof. unfold Rolling_mean. simpl. apply list_lookup_imap. Qed.

Lemma Rolling_std_lookup w xs i :
  Rolling_std (MkRolling xs w) !! i =
  (λ _, zsqrt (roll_var w 1 (observations w i xs))) <$> xs !! i.
Proof. unfold Rolling_std. simpl. apply list_lookup_imap. Qed.

Lemma Rolling_mean_length r : length (Rolling_mean r) = length (r_obj r).
Proof. apply length_imap. Qed.

Lemma Rolling_std_length r : length (Rolling_std r) = length (r_obj r).
Proof. apply length_imap. Qed.

Lemma z_series_lookup w needle i x :
  needle !! i = Some x →
  z_series w needle !! i =
  Some (div (sub x (roll_mean w (observations w i needle)))
            (zsqrt (roll_var w 1 (observations w i needle)))).
Proof.
  intros Hx. unfold z_series, series_div, series_sub.
  rewrite !lookup_zip_with, Rolling_mean_lookup, Rolling_std_lookup, Hx.
  done.
Qed.

Lemma z_series_length w needle : length (z_series w needle) = length needle.
Proof.
  unfold z_series, series_div, series_sub.
  rewrite !length_zip_with, Rolling_mean_length, Rolling_std_length. simpl. lia.
Qed.

Lemma needle_series_length high low :
  length high = length low → length (needle_series high low) = length low.
Proof.
  intros H. unfold needle_series, series_div, series_sub.
  rewrite !length_zip_with. lia.
Qed.

Lemma needle_series_lookup high low i h l :
  high !! i = Some h → low !! i = Some l →
  needle_series high low !! i = Some (div (sub h l) l).
Proof.
  intros Hh Hl. unfold needle_series, series_div, series_sub.
  by rewrite !lookup_zip_with, Hh, Hl.
Qed.

(** Fewer than [w] cells so far: the three statistics are NaN. *)
Lemma short_history w xs i x :
  xs !! i = Some x → (i + 1 < w)%nat →
  Rolling_mean (MkRolling xs w) !! i = Some NaN ∧
  Rolling_std (MkRolling xs w) !! i = Some NaN ∧
  z_series w xs !! i = Some NaN.
Proof.
  intros Hx Hi.
  pose proof (observations_length w i xs) as [_ Hlen].
  rewrite Rolling_mean_lookup, Rolling_std_lookup, (z_series_lookup _ _ _ x Hx), Hx.
  simpl. rewrite roll_mean_short, roll_var_short by lia.
  by rewrite sub_nan_r.
Qed.

(** A cell that is not finite has NaN statistics and a NaN z-score. *)
Lemma not_finite_z_score w xs i x :
  xs !! i = Some x → observation x = None →
  Rolling_mean (MkRolling xs w) !! i = Some NaN ∧
  Rolling_std (MkRolling xs w) !! i = Some NaN ∧
  z_series w xs !! i = Some NaN.
Proof.
  intros Hx Hobs.
  pose proof (observations_not_finite w i xs x Hx Hobs) as Hlen.
  rewrite Rolling_mean_lookup, Rolling_std_lookup, (z_series_lookup _ _ _ x Hx), Hx.
  simpl. rewrite roll_mean_short, roll_var_short by lia.
  by rewrite sub_nan_r.
Qed.

(** ** A window of identical cells *)

Lemma Qsum_cons x l : (Qsum (x :: l) == x + Qsum l)%Q.
Proof. unfold Qsum. simpl. apply Qred_correct. Qed.

Lemma Qnobs_replicate n (c : Q) : Qnobs (replicate n c) = inject_Z (Z.of_nat n).
Proof. unfold Qnobs. by rewrite length_replicate. Qed.

Lemma Qsum_replicate n c :
  (Qsum (replicate n c) == inject_Z (Z.of_nat n) * c)%Q.
Proof.
  induction n as [|n IH].
  - change (Qsum (replicate 0 c)) with 0%Q. change (inject_Z (Z.of_nat 0)) with 0%Q.
    lra.
  - change (replicate (S n) c) with (c :: replicate n c).
    rewrite Qsum_cons, IH, Nat2Z.inj_succ, <- Z.add_1_l, inject_Z_plus.
    change (inject_Z 1) with 1%Q. lra.
Qed.

Lemma Qmean_replicate n c : (0 < n)%nat → (Qmean (replicate n c) == c)%Q.
Proof.
  intros Hn. unfold Qmean. rewrite Qred_correct, Qsum_replicate, Qnobs_replicate.
  assert (0 < inject_Z (Z.of_nat n))%Q.
  { unfold Qlt, inject_Z. simpl. lia. }
  field. lra.
Qed.

Lemma ssqdm_replicate n c : (0 < n)%nat → (ssqdm (replicate n c) == 0)%Q.
Proof.
  intros Hn. unfold ssqdm. rewrite fmap_replicate, Qsum_replicate.
  rewrite (Qmean_replicate n c Hn). lra.
Qed.

(** The root of a rational that is zero is the rational [0]. *)
Lemma Qsqrt_of_zero q : (q == 0)%Q → Qsqrt (Qred q) = 0%Q.
Proof.
  intros Hq. unfold Qsqrt.
  assert (Hn : Qnum (Qred q) = 0).
  { assert (Hr : (Qred q == 0)%Q) by (by rewrite Qred_correct).
    unfold Qeq in Hr. change (Qnum 0%Q) with 0 in Hr.
    change (Z.pos (Qden 0%Q)) with 1 in Hr. lia. }
  by rewrite Hn.
Qed.

(** The statistics of [n] observations of one value: the mean is the value
    and the deviation is zero. *)
Lemma identical_observations w n c :
  (w ≤ n)%nat → (1 < n)%nat →
  (∃ m, roll_mean w (replicate n c) = Fin m ∧ (m == c)%Q) ∧
  zsqrt (roll_var w 1 (replicate n c)) = Fin 0.
Proof.
  intros Hw Hn. split.
  - exists (Qmean (replicate n c)).
    rewrite roll_mean_full by (rewrite length_replicate; lia).
    split; [done|]. apply Qmean_replicate. lia.
  - unfold roll_var. rewrite length_replicate.
    destruct (Nat.leb_spec w n); [|lia]. destruct (Nat.ltb_spec 1 n); [|lia].
    cbn [andb zsqrt]. f_equal. apply Qsqrt_of_zero.
    rewrite ssqdm_replicate by lia. unfold Qdiv. lra.
Qed.

Lemma omap_observation_replicate n c :
  omap observation (replicate n (Fin c)) = replicate n c.
Proof. induction n as [|n IH]; [done|]. csimpl. by rewrite IH. Qed.

(** A full window of cells that all hold the finite value [c]. *)
Lemma identical_window w i xs c :
  (w ≤ i + 1)%nat →
  (∀ j, (i + 1 - w ≤ j ≤ i)%nat → xs !! j = Some (Fin c)) →
  observations w i xs = replicate w c.
Proof.
  intros Hw Hall. unfold observations.
  assert (Hwin : window_at w i xs = replicate w (Fin c)).
  { symmetry. apply replicate_as_Forall. split.
    - unfold window_at. rewrite length_drop, length_take.
      destruct w as [|w]; [lia|].
      pose proof (lookup_lt_Some _ _ _ (Hall i ltac:(lia))). lia.
    - apply Forall_forall. intros x [k Hk]%list_elem_of_lookup.
      unfold window_at in Hk. rewrite lookup_drop in Hk.
      apply lookup_take_Some in Hk as [Hk Hlt].
      rewrite Hall in Hk by lia. congruence. }
  by rewrite Hwin, omap_observation_replicate.
Qed.

Lemma identical_window_z_score w i xs c :
  (1 < w)%nat → (w ≤ i + 1)%nat →
  (∀ j, (i + 1 - w ≤ j ≤ i)%nat → xs !! j = Some (Fin c)) →
  (∃ m, Rolling_mean (MkRolling xs w) !! i = Some (Fin m) ∧ (m == c)%Q) ∧
  Rolling_std (MkRolling xs w) !! i = Some (Fin 0) ∧
  z_series w xs !! i = Some NaN.
Proof.
  intros Hw1 Hw Hall.
  pose proof (Hall i ltac:(lia)) as Hx.
  pose proof (identical_window w i xs c Hw Hall) as Hobs.
  destruct (identical_observations w w c ltac:(lia) Hw1) as [(m & Hm & Hmc) Hstd].
  rewrite Rolling_mean_lookup, Rolling_std_lookup, (z_series_lookup _ _ _ _ Hx),
    Hx, Hobs, Hm, Hstd.
  split; [by exists m|]. split; [done|]. f_equal. cbn [sub neg add].
  apply fin_div_zero; [|reflexivity]. rewrite Qred_correct. lra.
Qed.

(** ** Boolean indexing *)

Lemma select_nil_r {A} mask : select mask (@nil A) = [].
Proof. unfold select. by destruct mask. Qed.

Lemma select_cons {A} b mask (x : A) xs :
  select (b :: mask) (x :: xs) =
  if b then x :: select mask xs else select mask xs.
Proof.
  unfold select. simpl. rewrite filter_cons. simpl.
  destruct b; by case_decide.
Qed.

Lemma select_length {A} mask (xs : list A) :
  (length (select mask xs) ≤ length xs)%nat.
Proof.
  revert xs. induction mask as [|b mask IH]; intros [|x xs];
    rewrite ?select_nil_r, ?select_cons; try (simpl; lia).
  specialize (IH xs). destruct b; simpl; lia.
Qed.

(** A mask without [true] keeps nothing. *)
Lemma select_all_false {A} mask (xs : list A) :
  (∀ i, mask !! i ≠ Some true) → select mask xs = [].
Proof.
  revert xs. induction mask as [|b mask IH]; intros [|x xs] H;
    rewrite ?select_nil_r; try done.
  rewrite select_cons. destruct b.
  - by destruct (H 0%nat).
  - apply IH. intros i. apply (H (S i)).
Qed.

Lemma filter_fmap_S (P : nat → Prop) `{!∀ i, Decision (P i)} (l : list nat) :
  filter P (S <$> l) = S <$> filter (λ i, P (S i)) l.
Proof.
  induction l as [|a l IH]; [done|]. csimpl. rewrite !filter_cons, IH.
  by case_decide.
Qed.

Lemma kept_cons b mask :
  kept (b :: mask) = (if b then [0%nat] else []) ++ (S <$> kept mask).
Proof.
  unfold kept. simpl. rewrite filter_cons, <- fmap_S_seq, filter_fmap_S. simpl.
  destruct b; by case_decide.
Qed.

Lemma elem_of_kept mask i : i ∈ kept mask ↔ mask !! i = Some true.
Proof.
  unfold kept. rewrite list_elem_of_filter, elem_of_seq. split; [tauto|].
  intros H. split; [done|]. apply lookup_lt_Some in H. lia.
Qed.

Lemma kept_sorted mask : StronglySorted lt (kept mask).
Proof.
  induction mask as [|b mask IH]; [constructor|].
  rewrite kept_cons.
  assert (Hs : StronglySorted lt (S <$> kept mask)).
  { apply (StronglySorted_fmap S lt lt); [|done]. intros ???. lia. }
  destruct b; simpl; [|done]. constructor; [done|].
  apply Forall_forall. intros j [k [-> _]]%list_elem_of_fmap. lia.
Qed.

Lemma cells_at_fmap_S {A} pos (x : A) xs :
  cells_at (S <$> pos) (x :: xs) = cells_at pos xs.
Proof.
  unfold cells_at. induction pos as [|i pos IH]; [done|]. csimpl.
  by rewrite IH.
Qed.

(** Boolean indexing returns the cells at the kept positions, in order. *)
Lemma select_cells_at {A} mask (xs : list A) :
  length mask = length xs → select mask xs = cells_at (kept mask) xs.
Proof.
  revert xs. induction mask as [|b mask IH]; intros [|x xs] Hlen; try done.
  rewrite select_cons, kept_cons. injection Hlen as Hlen.
  destruct b; simpl.
  - unfold cells_at at 1. csimpl. fold (cells_at (S <$> kept mask) (x :: xs)).
    by rewrite cells_at_fmap_S, IH.
  - by rewrite cells_at_fmap_S, IH.
Qed.

Lemma fat_finger_mask_length z volume zt vm :
  length z = length volume → length (fat_finger_mask z volume zt vm) = length z.
Proof.
  intros H. unfold fat_finger_mask, mask_and, series_gt_scalar, series_gt,
    series_mul_scalar, avg_vol_series.
  rewrite !length_zip_with, !length_fmap, Rolling_mean_length. simpl. lia.
Qed.

(** The mask at a position: both comparisons hold there. *)
Lemma fat_finger_mask_lookup z volume zt vm i zi vi :
  z !! i = Some zi → volume !! i = Some vi →
  fat_finger_mask z volume zt vm !! i =
  Some (gt zi zt &&
        gt vi (mul (roll_mean 30 (observations 30 i volume)) vm)).
Proof.
  intros Hz Hv. unfold fat_finger_mask, mask_and, series_gt_scalar, series_gt,
    series_mul_scalar, avg_vol_series.
  rewrite !lookup_zip_with, !list_lookup_fmap, Rolling_mean_lookup, Hz, Hv.
  done.
Qed.

(** ** The metric frame *)

Lemma with_metrics_index w high low df :
  index (with_metrics w high low df) = index df.
Proof. reflexivity. Qed.

Lemma with_metrics_z_score w high low df :
  columns (with_metrics w high low df) !! "z_score" =
  Some (z_series w (needle_series high low)).
Proof. unfold with_metrics. column_lookup. Qed.

Lemma with_metrics_rolling_std w high low df :
  columns (with_metrics w high low df) !! "rolling_std" =
  Some (Rolling_std (MkRolling (needle_series high low) w)).
Proof. unfold with_metrics. column_lookup. Qed.

Lemma with_metrics_rolling_mean w high low df :
  columns (with_metrics w high low df) !! "rolling_mean" =
  Some (Rolling_mean (MkRolling (needle_series high low) w)).
Proof. unfold with_metrics. column_lookup. Qed.

Lemma with_metrics_needle_pct w high low df :
  columns (with_metrics w high low df) !! "needle_pct" =
  Some (needle_series high low).
Proof. unfold with_metrics. column_lookup. Qed.

(** The columns of the input are carried over. *)
Lemma with_metrics_other w high low df c :
  c ∉ derived_columns →
  columns (with_metrics w high low df) !! c = columns df !! c.
Proof.
  intros Hc. unfold with_metrics, with_needle. cbn [columns set_column].
  rewrite !lookup_insert_ne; [done|..]; intros <-; apply Hc;
    unfold derived_columns; set_solver.
Qed.

Lemma with_metrics_wf w high low df :
  wf_frame df →
  columns df !! "High" = Some high → columns df !! "Low" = Some low →
  wf_frame (with_metrics w high low df).
Proof.
  intros Hwf Hh Hl.
  assert (Hlen : length (needle_series high low) = length (index df)).
  { rewrite needle_series_length; [by apply (Hwf "Low")|].
    by rewrite (Hwf "High" high), (Hwf "Low" low). }
  unfold wf_frame, with_metrics, with_needle. cbn [columns set_column index].
  repeat apply map_Forall_insert_2; [..|done].
  - by rewrite z_series_length.
  - by rewrite Rolling_std_length.
  - by rewrite Rolling_mean_length.
  - done.
Qed.

Lemma select_rows_wf mask m :
  wf_frame m → length mask = length (index m) →
  rows_at (kept mask) m (select_rows mask m).
Proof.
  intros Hwf Hlen. split.
  - by apply select_cells_at.
  - intros c. cbn [columns select_rows]. rewrite lookup_fmap.
    destruct (columns m !! c) as [xs|] eqn:Hc; [|done]. simpl. f_equal.
    apply select_cells_at. by rewrite (Hwf c xs).
Qed.

(** ** What the methods return and what they leave untouched *)

Lemma calculate_metrics_outcome w s df :
  heap s !! self_data s = Some df →
  outcome (_calculate_metrics w s) = metrics_outcome w df.
Proof.
  intros Hd. unfold metrics_outcome.
  destruct (columns df !! "High") as [high|] eqn:Hh;
    [|by rewrite (calculate_metrics_no_high w s df)].
  destruct (columns df !! "Low") as [low|] eqn:Hl;
    [|by rewrite (calculate_metrics_no_low w s df high)].
  destruct (Z.ltb_spec w 0).
  - by rewrite (calculate_metrics_negative w s df high low).
  - rewrite (calculate_metrics_run w s df high low) by done.
    unfold outcome. simpl. by rewrite lookup_insert_eq.
Qed.

Lemma identify_fat_fingers_outcome zt vm s df :
  heap s !! self_data s = Some df →
  outcome (identify_fat_fingers zt vm s) = anomalies_outcome zt vm df.
Proof.
  intros Hd. unfold anomalies_outcome.
  destruct (columns df !! "High") as [high|] eqn:Hh.
  2: { unfold identify_fat_fingers.
       by erewrite run_bind_raise by by apply calculate_metrics_no_high. }
  destruct (columns df !! "Low") as [low|] eqn:Hl.
  2: { unfold identify_fat_fingers.
       by erewrite run_bind_raise by by eapply calculate_metrics_no_low. }
  destruct (columns df !! "Volume") as [volume|] eqn:Hv;
    [|by rewrite (identify_fat_fingers_no_volume zt vm s df high low)].
  rewrite (identify_fat_fingers_run zt vm s df high low volume) by done.
  unfold outcome. simpl. by rewrite lookup_insert_eq.
Qed.

Lemma insert_fresh_subseteq (h : gmap loc DataFrame) df :
  h ⊆ <[fresh (dom h) := df]> h.
Proof. apply insert_subseteq, fresh_heap. Qed.

Lemma calculate_metrics_extends w s :
  extends s (_calculate_metrics w s).2 ∧
  self_anomalies (_calculate_metrics w s).2 = self_anomalies s ∧
  ∀ l, (_calculate_metrics w s).1 = Ok l → heap s !! l = None.
Proof.
  destruct (heap s !! self_data s) as [df|] eqn:Hd;
    [|by rewrite calculate_metrics_dangling].
  destruct (columns df !! "High") as [high|] eqn:Hh.
  2: { rewrite (calculate_metrics_no_high w s df) by done.
       repeat split; try done. apply insert_fresh_subseteq. }
  destruct (columns df !! "Low") as [low|] eqn:Hl.
  2: { rewrite (calculate_metrics_no_low w s df high) by done.
       repeat split; try done. apply insert_fresh_subseteq. }
  destruct (Z.ltb_spec w 0).
  - rewrite (calculate_metrics_negative w s df high low) by done.
    repeat split; try done. apply insert_fresh_subseteq.
  - rewrite (calculate_metrics_run w s df high low) by done.
    repeat split; try done; [apply insert_fresh_subseteq|].
    simpl. intros l [= <-]. apply fresh_heap.
Qed.

Lemma identify_fat_fingers_extends zt vm s :
  extends s (identify_fat_fingers zt vm s).2 ∧
  ∀ l, (identify_fat_fingers zt vm s).1 = Ok l →
       heap s !! l = None ∧ self_anomalies (identify_fat_fingers zt vm s).2 = l.
Proof.
  destruct (heap s !! self_data s) as [df|] eqn:Hd.
  2: { unfold identify_fat_fingers.
       by erewrite run_bind_raise by by apply calculate_metrics_dangling. }
  destruct (columns df !! "High") as [high|] eqn:Hh.
  2: { unfold identify_fat_fingers.
       erewrite run_bind_raise by by apply calculate_metrics_no_high.
       repeat split; try done. apply insert_fresh_subseteq. }
  destruct (columns df !! "Low") as [low|] eqn:Hl.
  2: { unfold identify_fat_fingers.
       erewrite run_bind_raise by by eapply calculate_metrics_no_low.
       repeat split; try done. apply insert_fresh_subseteq. }
  destruct (columns df !! "Volume") as [volume|] eqn:Hv.
  2: { rewrite (identify_fat_fingers_no_volume zt vm s df high low) by done.
       repeat split; try done. apply insert_fresh_subseteq. }
  rewrite (identify_fat_fingers_run zt vm s df high low volume) by done.
  cbn zeta.
  set (h1 := <[fresh (dom (heap s)) := _]> (heap s)).
  set (h2 := <[fresh (dom h1) := _]> h1).
  assert (H1 : heap s ⊆ h1) by apply insert_fresh_subseteq.
  assert (H2 : h1 ⊆ h2) by apply insert_fresh_subseteq.
  assert (H3 : h2 ⊆ <[fresh (dom h2) := select_rows
              (fat_finger_mask (z_series 30 (needle_series high low)) volume zt vm)
              (with_metrics 30 high low df)]> h2) by apply insert_fresh_subseteq.
  repeat split; try done.
  - simpl. by do 2 (etrans; [eassumption|]).
  - simpl in *. simplify_eq.
    destruct (heap s !! fresh (dom h2)) as [x|] eqn:Hx; [|done].
    pose proof (fresh_heap h2) as Hf.
    eapply lookup_weaken in Hx; [|by etrans]. congruence.
  - simpl in *. by simplify_eq.
Qed.

(** ** The detector on well-formed input *)

Lemma mask_passes zt vm z volume i :
  length z = length volume →
  fat_finger_mask z volume zt vm !! i = Some true ↔ passes zt vm z volume i.
Proof.
  intros Hlen. split.
  - intros Hm. pose proof (lookup_lt_Some _ _ _ Hm) as Hi.
    rewrite fat_finger_mask_length in Hi by done.
    destruct (lookup_lt_is_Some_2 z i Hi) as [zi Hz].
    destruct (lookup_lt_is_Some_2 volume i ltac:(lia)) as [vi Hv].
    rewrite (fat_finger_mask_lookup _ _ _ _ _ zi vi Hz Hv) in Hm.
    injection Hm as Hm. apply andb_true_iff in Hm as [H1 H2].
    exists zi, vi, (roll_mean 30 (observations 30 i volume)).
    unfold avg_vol_series. rewrite Rolling_mean_lookup, Hv.
    split_and!; try done; by apply gt_float_lt.
  - intros (zi & vi & ai & Hz & Hv & Ha & H1 & H2).
    rewrite (fat_finger_mask_lookup _ _ _ _ _ zi vi Hz Hv). f_equal.
    unfold avg_vol_series in Ha. rewrite Rolling_mean_lookup, Hv in Ha.
    injection Ha as <-. apply andb_true_iff. split; by apply gt_float_lt.
Qed.

Lemma detection zt vm s df :
  holds_market_data s df →
  ∃ high low volume l s',
    columns df !! "High" = Some high ∧
    columns df !! "Low" = Some low ∧
    columns df !! "Volume" = Some volume ∧
    identify_fat_fingers zt vm s = (Ok l, s') ∧
    self_anomalies s' = l ∧
    heap s' !! l =
      Some (select_rows
              (fat_finger_mask (z_series 30 (needle_series high low)) volume zt vm)
              (with_metrics 30 high low df)) ∧
    outcome (_calculate_metrics default_window s) =
      Ok (Some (with_metrics 30 high low df)) ∧
    wf_frame (with_metrics 30 high low df) ∧
    columns (with_metrics 30 high low df) !! "Volume" = Some volume ∧
    length (z_series 30 (needle_series high low)) = length (index df) ∧
    length volume = length (index df).
Proof.
  intros [(Hd & Hwf & [high Hh] & [low Hl]) [volume Hv]].
  pose proof (identify_fat_fingers_run zt vm s df high low volume Hd Hh Hl Hv)
    as Hrun. cbn zeta in Hrun.
  eexists high, low, volume, _, _.
  do 3 (split; [done|]). split; [exact Hrun|]. split; [done|].
  split; [simpl; apply lookup_insert_eq|].
  split.
  { rewrite (calculate_metrics_outcome _ _ df Hd). unfold metrics_outcome.
    by rewrite Hh, Hl. }
  split; [by apply with_metrics_wf|].
  split.
  { rewrite with_metrics_other; [done|]. compute_done. }
  split; [|by apply (Hwf "Volume")].
  rewrite z_series_length, needle_series_length; [by apply (Hwf "Low")|].
  by rewrite (Hwf "High" high), (Hwf "Low" low).
Qed.

(** ** Undefined z-scores *)

Lemma z_series_undefined w needle i :
  needle !! i = Some NaN ∨
  Rolling_mean (MkRolling needle w) !! i = Some NaN ∨
  Rolling_std (MkRolling needle w) !! i = Some NaN →
  z_series w needle !! i = Some NaN.
Proof.
  intros [Hx|[Hm|Hs]].
  - rewrite (z_series_lookup _ _ _ NaN Hx). by rewrite sub_nan_l, div_nan_l.
  - rewrite Rolling_mean_lookup in Hm.
    destruct (needle !! i) as [x|] eqn:Hx; [|done]. injection Hm as Hm.
    rewrite (z_series_lookup _ _ _ x Hx), Hm. by rewrite sub_nan_r, div_nan_l.
  - rewrite Rolling_std_lookup in Hs.
    destruct (needle !! i) as [x|] eqn:Hx; [|done]. injection Hs as Hs.
    rewrite (z_series_lookup _ _ _ x Hx), Hs. by rewrite div_nan_r.
Qed.

(** The z-score is the quotient of line 39, cell by cell. *)
Lemma z_series_quotient w needle i x m s :
  needle !! i = Some x →
  Rolling_mean (MkRolling needle w) !! i = Some m →
  Rolling_std (MkRolling needle w) !! i = Some s →
  z_series w needle !! i = Some (div (sub x m) s).
Proof.
  intros Hx Hm Hs. rewrite Rolling_mean_lookup, Hx in Hm.
  rewrite Rolling_std_lookup, Hx in Hs. injection Hm as <-. injection Hs as <-.
  by apply z_series_lookup.
Qed.

Lemma nan_z_never_passes zt vm z volume i :
  z !! i = Some NaN → ¬ passes zt vm z volume i.
Proof.
  intros Hz (zi & vi & ai & Hzi & _ & _ & Hlt & _).
  rewrite Hz in Hzi. injection Hzi as <-.
  by destruct (float_lt_defined _ _ Hlt) as [_ []].
Qed.

(** A window of size zero has no observation. *)
Lemma zero_window xs i x :
  xs !! i = Some x →
  Rolling_mean (MkRolling xs 0) !! i = Some NaN ∧
  Rolling_std (MkRolling xs 0) !! i = Some NaN ∧
  z_series 0 xs !! i = Some NaN.
Proof.
  intros Hx. pose proof (observations_length 0 i xs) as [Hlen _].
  rewrite Rolling_mean_lookup, Rolling_std_lookup, (z_series_lookup _ _ _ x Hx), Hx.
  simpl. rewrite roll_mean_short, roll_var_short by lia.
  by rewrite sub_nan_r.
Qed.

(** ** A low of zero *)

(** A quotient with divisor zero: NaN over a zero numerator, an infinity
    otherwise. *)
Lemma zero_divisor_quotient a b :
  (b == 0)%Q →
  ((a == 0)%Q → div (Fin a) (Fin b) = NaN) ∧
  (¬ (a == 0)%Q → div (Fin a) (Fin b) = PInf ∨ div (Fin a) (Fin b) = NInf).
Proof.
  intros Hb. apply Qsgn_Eq in Hb. cbn [div]. rewrite Hb. split.
  - intros Ha. apply Qsgn_Eq in Ha. by rewrite Ha.
  - intros Ha. destruct (Qsgn a) eqn:Hs; auto. by apply Qsgn_Eq in Hs.
Qed.

Lemma zero_low_needle h q :
  (q == 0)%Q →
  ((h == 0)%Q → div (sub (Fin h) (Fin q)) (Fin q) = NaN) ∧
  (¬ (h == 0)%Q → div (sub (Fin h) (Fin q)) (Fin q) = PInf ∨
                  div (sub (Fin h) (Fin q)) (Fin q) = NInf).
Proof.
  intros Hq. cbn [sub neg add].
  destruct (zero_divisor_quotient (Qred (h + - q)) q Hq) as [H0 H1].
  assert (Heq : (Qred (h + - q) == h)%Q) by (rewrite Qred_correct; lra).
  split; intros Hh; [apply H0|apply H1]; rewrite Heq; done.
Qed.

(** The z-score over a deviation of zero. *)
Lemma zero_deviation_quotient x m q :
  (q == 0)%Q →
  ((x == m)%Q → div (sub (Fin x) (Fin m)) (Fin q) = NaN) ∧
  (¬ (x == m)%Q → div (sub (Fin x) (Fin m)) (Fin q) = PInf ∨
                  div (sub (Fin x) (Fin m)) (Fin q) = NInf).
Proof.
  intros Hq. cbn [sub neg add].
  destruct (zero_divisor_quotient (Qred (x + - m)) q Hq) as [H0 H1].
  assert (Heq : (Qred (x + - m) == x - m)%Q) by (rewrite Qred_correct; lra).
  split; intros Hx; [apply H0|apply H1]; rewrite Heq; [lra|].
  intros H. apply Hx. lra.
Qed.

(** ** The sample batches are well-formed *)

Lemma spike_state_holds : holds_market_data spike_state (feed_of spike_bars).
Proof.
  split; [split; [vm_compute; reflexivity|]|eexists; vm_compute; reflexivity].
  split; [unfold wf_frame; compute_done|].
  split; eexists; vm_compute; reflexivity.
Qed.

Lemma short_state_holds : holds_market_data short_state (feed_of short_bars).
Proof.
  split; [split; [vm_compute; reflexivity|]|eexists; vm_compute; reflexivity].
  split; [unfold wf_frame; compute_done|].
  split; eexists; vm_compute; reflexivity.
Qed.

Lemma zero_low_state_holds :
  holds_market_data zero_low_state (feed_of zero_low_bars).
Proof.
  split; [split; [vm_compute; reflexivity|]|eexists; vm_compute; reflexivity].
  split; [unfold wf_frame; compute_done|].
  split; eexists; vm_compute; reflexivity.
Qed.

Lemma flat_state_holds : holds_market_data flat_state (feed_of flat_bars).
Proof.
  split; [split; [vm_compute; reflexivity|]|eexists; vm_compute; reflexivity].
  split; [unfold wf_frame; compute_done|].
  split; eexists; vm_compute; reflexivity.
Qed.

(** With both thresholds at 5 the detector keeps the last bar of the spike
    batch and nothing else. *)
Example spike_is_flagged :
  index spike_anomalies = [30] ∧
  columns spike_anomalies !! "Volume" = Some [Fin 100] ∧
  columns spike_anomalies !! "needle_pct" = Some [Fin (1 # 2)].
Proof. vm_compute. done. Qed.

(** With the default thresholds 8 and 5 nothing is kept. *)
Example spike_is_below_default_threshold :
  ∃ a, outcome (identify_fat_fingers default_z_threshold default_vol_multiplier
                  spike_state) = Ok (Some a) ∧
       index a = [].
Proof. eexists. split; [vm_compute; reflexivity|]. reflexivity. Qed.

(** Thirty bars of one range: the deviation of the last window is zero and
    its z-score is NaN. *)
Example flat_window_example :
  ∃ m, outcome (_calculate_metrics 30 flat_state) = Ok (Some m) ∧
       (columns m !! "rolling_std" ≫= (.!! 29%nat)) = Some (Fin 0) ∧
       (columns m !! "z_score" ≫= (.!! 29%nat)) = Some NaN.
Proof. eexists. split; [vm_compute; reflexivity|]. by vm_compute. Qed.

(** The same in binary64, for a window of one value that follows a jump:
    the mean is that value, the deviation is zero and the z-score is NaN. *)
Example identical_window_binary64 :
  let needle := Binary64.needle_pct Binary64.settle_high Binary64.jump_low in
  needle !! 1%nat = needle !! 3%nat ∧ needle !! 2%nat = needle !! 3%nat ∧
  Binary64.roll_mean 3 needle !! 3%nat = needle !! 3%nat ∧
  Binary64.roll_std 3 needle !! 3%nat = Some PrimFloat.zero ∧
  PrimFloat.is_nan <$> Binary64.z_score 3 needle !! 3%nat = Some true.
Proof. repeat split; vm_compute; reflexivity. Qed.

(** * The properties of the program *)

(** C10: when the anomaly set is not empty and [export_report] is called with
    a format other than "csv" and "json", no file is written; the call still
    returns normally and prints that the audit report was generated. *)
Theorem export_report_unknown_format now format s a :
  heap s !! self_anomalies s = Some a →
  frame_empty a = false →
  format ≠ "csv" → format ≠ "json" →
  ∃ filename,
    export_report now format s =
      (Ok tt,
       set_trace
         (Stdout ("[✓] BrilionX Audit Report generated: " +:+ filename) :: trace s)
         s) ∧
    written (trace (export_report now format s).2) = written (trace s) ∧
    heap (export_report now format s).2 = heap s.
Proof.
  intros Ha He Hcsv Hjson.
  assert (Hrun : export_report now format s =
    (Ok tt,
     set_trace
       (Stdout ("[✓] BrilionX Audit Report generated: " +:+
                ("Sentinel_Audit_" +:+ replace_char "-" "_" (self_ticker s) +:+
                 "_" +:+ now +:+ "." +:+ format)) :: trace s) s)).
  { unfold export_report. rewrite run_gets.
    erewrite run_deref by exact Ha. rewrite He, run_gets.
    destruct (decide (format = "csv")); [done|].
    destruct (decide (format = "json")); [done|].
    by rewrite run_ret. }
  eexists. split; [exact Hrun|]. by rewrite Hrun.
Qed.

(** An instance: the spike batch after detection, exported as "xml". *)
Lemma export_report_unknown_format_witness :
  heap spike_detected_state !! self_anomalies spike_detected_state
    = Some spike_anomalies ∧
  frame_empty spike_anomalies = false ∧
  ∃ filename,
    export_report "20260101_120000" "xml" spike_detected_state =
      (Ok tt,
       set_trace (Stdout ("[✓] BrilionX Audit Report generated: " +:+ filename)
                    :: trace spike_detected_state) spike_detected_state) ∧
    written (trace (export_report "20260101_120000" "xml" spike_detected_state).2)
      = written (trace spike_detected_state) ∧
    heap (export_report "20260101_120000" "xml" spike_detected_state).2
      = heap spike_detected_state.
Proof.
  assert (H1 : heap spike_detected_state !! self_anomalies spike_detected_state
               = Some spike_anomalies) by (vm_compute; reflexivity).
  assert (H2 : frame_empty spike_anomalies = false) by (vm_compute; reflexivity).
  split; [exact H1|]. split; [exact H2|].
  apply (export_report_unknown_format _ "xml" _ spike_anomalies H1 H2);
    discriminate.
Defined.

(** C8: neither [_calculate_metrics] nor [identify_fat_fingers] mutates the
    input: after a run, whatever its result, [self.data] refers to the same
    frame with the same content, every frame stored before the run is
    unchanged, and the frame a successful run returns is a new one. *)
Theorem input_is_never_mutated w zt vm s :
  let s1 := (_calculate_metrics w s).2 in
  let s2 := (identify_fat_fingers zt vm s).2 in
  let s3 := (identify_fat_fingers zt vm s1).2 in
  (extends s s1 ∧ heap s1 !! self_data s1 = heap s !! self_data s ∧
   ∀ l, (_calculate_metrics w s).1 = Ok l → l ∉ dom (heap s)) ∧
  (extends s s2 ∧ heap s2 !! self_data s2 = heap s !! self_data s ∧
   ∀ l, (identify_fat_fingers zt vm s).1 = Ok l →
        (l ∉ dom (heap s)) ∧ self_anomalies s2 = l) ∧
  (extends s s3 ∧ heap s3 !! self_data s3 = heap s !! self_data s).
Proof.
  assert (Hkeep : ∀ t t', extends t t' →
            is_Some (heap t !! self_data t) →
            heap t' !! self_data t' = heap t !! self_data t).
  { intros t t' (Hsub & -> & _) [df Hdf]. rewrite Hdf.
    by eapply lookup_weaken. }
  assert (Hcalc : ∀ t, heap (_calculate_metrics w t).2 !! self_data (_calculate_metrics w t).2
                       = heap t !! self_data t).
  { intros t. destruct (heap t !! self_data t) as [df|] eqn:Hd.
    - rewrite <- Hd. apply Hkeep; [apply calculate_metrics_extends | by rewrite Hd].
    - by rewrite calculate_metrics_dangling. }
  assert (Hid : ∀ t, heap (identify_fat_fingers zt vm t).2
                       !! self_data (identify_fat_fingers zt vm t).2
                     = heap t !! self_data t).
  { intros t. destruct (heap t !! self_data t) as [df|] eqn:Hd.
    - rewrite <- Hd. apply Hkeep; [apply identify_fat_fingers_extends | by rewrite Hd].
    - unfold identify_fat_fingers.
      by erewrite run_bind_raise by by apply calculate_metrics_dangling. }
  intros s1 s2 s3.
  destruct (calculate_metrics_extends w s) as (He1 & _ & Hf1).
  destruct (identify_fat_fingers_extends zt vm s) as (He2 & Hf2).
  destruct (identify_fat_fingers_extends zt vm s1) as (He3 & _).
  split_and!; try done.
  - apply Hcalc.
  - intros l Hl. by apply not_elem_of_dom, Hf1.
  - apply Hid.
  - intros l Hl. destruct (Hf2 l Hl). split; [by apply not_elem_of_dom|done].
  - destruct He1 as (? & ? & ? & ?), He3 as (? & ? & ? & ?).
    unfold extends. split_and!; etrans; eassumption.
  - unfold s3. rewrite Hid. apply Hcalc.
Qed.

(** C9: the computation is deterministic and idempotent: the result of the
    metrics calculator and of the detection pipeline is a function of the
    input frame and of the parameters alone, so two runs on objects holding
    the same batch, or two successive runs on one object, give identical
    results; no clock is read. *)
Theorem runs_are_deterministic w zt vm s s' df :
  heap s !! self_data s = Some df →
  heap s' !! self_data s' = Some df →
  outcome (_calculate_metrics w s) = outcome (_calculate_metrics w s') ∧
  outcome (identify_fat_fingers zt vm s) = outcome (identify_fat_fingers zt vm s') ∧
  outcome (_calculate_metrics w (_calculate_metrics w s).2)
    = outcome (_calculate_metrics w s) ∧
  outcome (identify_fat_fingers zt vm (identify_fat_fingers zt vm s).2)
    = outcome (identify_fat_fingers zt vm s) ∧
  outcome (_calculate_metrics w s) = metrics_outcome w df ∧
  outcome (identify_fat_fingers zt vm s) = anomalies_outcome zt vm df.
Proof.
  intros Hd Hd'.
  assert (H1 : heap (_calculate_metrics w s).2 !! self_data (_calculate_metrics w s).2
               = Some df).
  { destruct (calculate_metrics_extends w s) as ((Hsub & -> & _) & _).
    by eapply lookup_weaken. }
  assert (H2 : heap (identify_fat_fingers zt vm s).2
                 !! self_data (identify_fat_fingers zt vm s).2 = Some df).
  { destruct (identify_fat_fingers_extends zt vm s) as ((Hsub & -> & _) & _).
    by eapply lookup_weaken. }
  rewrite !(calculate_metrics_outcome w _ df) by done.
  by rewrite !(identify_fat_fingers_outcome zt vm _ df) by done.
Qed.

(** An instance: the spike batch before and after a detection run. *)
Lemma runs_are_deterministic_witness :
  heap spike_state !! self_data spike_state = Some (feed_of spike_bars) ∧
  heap spike_detected_state !! self_data spike_detected_state
    = Some (feed_of spike_bars) ∧
  outcome (_calculate_metrics 30 spike_state)
    = outcome (_calculate_metrics 30 spike_detected_state) ∧
  outcome (identify_fat_fingers (Fin 5) (Fin 5) spike_state)
    = outcome (identify_fat_fingers (Fin 5) (Fin 5) spike_detected_state).
Proof.
  assert (H1 : heap spike_state !! self_data spike_state
               = Some (feed_of spike_bars)) by (vm_compute; reflexivity).
  assert (H2 : heap spike_detected_state !! self_data spike_detected_state
               = Some (feed_of spike_bars)) by (vm_compute; reflexivity).
  split; [exact H1|]. split; [exact H2|].
  destruct (runs_are_deterministic 30 (Fin 5) (Fin 5) _ _ _ H1 H2)
    as (Ha & Hb & _).
  split; [exact Ha | exact Hb].
Defined.

(** C5: for every batch and window [w], the metrics calculator returns a
    frame with the index of the input, hence of the same length and order,
    in which the input columns are carried over and every column has one cell
    per row; at every position [i < w - 1] the cells of [rolling_mean],
    [rolling_std] and [z_score] are NaN. *)
Theorem insufficient_history_is_undefined w s df :
  holds_data s df → 0 ≤ w →
  ∃ l s' m mean std z,
    _calculate_metrics w s = (Ok l, s') ∧
    heap s' !! l = Some m ∧
    index m = index df ∧
    wf_frame m ∧
    (∀ c, c ∉ derived_columns → columns m !! c = columns df !! c) ∧
    columns m !! "rolling_mean" = Some mean ∧
    columns m !! "rolling_std" = Some std ∧
    columns m !! "z_score" = Some z ∧
    ∀ i, (i < length (index df))%nat → Z.of_nat i < w - 1 →
         mean !! i = Some NaN ∧ std !! i = Some NaN ∧ z !! i = Some NaN.
Proof.
  intros (Hd & Hwf & [high Hh] & [low Hl]) Hw.
  eexists _, _, (with_metrics (Z.to_nat w) high low df), _, _, _.
  split; [by apply calculate_metrics_run|].
  split; [simpl; apply lookup_insert_eq|].
  split; [done|].
  split; [by apply with_metrics_wf|].
  split; [intros c Hc; by apply with_metrics_other|].
  split; [apply with_metrics_rolling_mean|].
  split; [apply with_metrics_rolling_std|].
  split; [apply with_metrics_z_score|].
  intros i Hi Hiw.
  assert (Hlen : length (needle_series high low) = length (index df)).
  { rewrite needle_series_length; [by apply (Hwf "Low")|].
    by rewrite (Hwf "High" high), (Hwf "Low" low). }
  destruct (lookup_lt_is_Some_2 (needle_series high low) i ltac:(lia)) as [x Hx].
  apply (short_history _ _ _ x Hx). lia.
Qed.

(** An instance: the spike batch with the window 30. *)
Lemma insufficient_history_is_undefined_witness :
  holds_data spike_state (feed_of spike_bars) ∧ 0 ≤ 30 ∧
  ∃ l s' m mean std z,
    _calculate_metrics 30 spike_state = (Ok l, s') ∧
    heap s' !! l = Some m ∧
    index m = index (feed_of spike_bars) ∧
    wf_frame m ∧
    (∀ c, c ∉ derived_columns → columns m !! c = columns (feed_of spike_bars) !! c) ∧
    columns m !! "rolling_mean" = Some mean ∧
    columns m !! "rolling_std" = Some std ∧
    columns m !! "z_score" = Some z ∧
    ∀ i, (i < length (index (feed_of spike_bars)))%nat → Z.of_nat i < 30 - 1 →
         mean !! i = Some NaN ∧ std !! i = Some NaN ∧ z !! i = Some NaN.
Proof.
  assert (H : holds_data spike_state (feed_of spike_bars)).
  { split; [vm_compute; reflexivity|].
    split; [unfold wf_frame; compute_done|].
    split; eexists; vm_compute; reflexivity. }
  split; [exact H|]. split; [lia|].
  apply (insufficient_history_is_undefined 30 _ _ H). lia.
Defined.




(** C7: on a batch shorter than the window of 30 the detector returns a frame
    without rows, whatever the two thresholds; and whenever no position
    passes the detector the value returned is a frame without rows, with the
    columns of the metric frame, not an exception or a missing value. *)
Theorem quiet_batch_gives_an_empty_frame zt vm s df :
  holds_market_data s df →
  ∃ l s' m a z volume,
    identify_fat_fingers zt vm s = (Ok l, s') ∧
    heap s' !! l = Some a ∧
    self_anomalies s' = l ∧
    outcome (_calculate_metrics default_window s) = Ok (Some m) ∧
    columns m !! "z_score" = Some z ∧
    columns m !! "Volume" = Some volume ∧
    dom (columns a) = dom (columns m) ∧
    (Z.of_nat (length (index df)) < default_window →
     index a = [] ∧ ∀ c xs, columns a !! c = Some xs → xs = []) ∧
    ((∀ i, ¬ passes zt vm z volume i) →
     index a = [] ∧ ∀ c xs, columns a !! c = Some xs → xs = []).
Proof.
  intros Hm.
  destruct (detection zt vm s df Hm)
    as (high & low & volume & l & s' & Hh & Hl & Hv & Hrun & Hself & Ha & Hout
        & Hwf & Hmv & Hlz & Hlv).
  set (z := z_series 30 (needle_series high low)) in *.
  set (mask := fat_finger_mask z volume zt vm) in *.
  assert (Hquiet : (∀ i, ¬ passes zt vm z volume i) →
     index (select_rows mask (with_metrics 30 high low df)) = [] ∧
     ∀ c xs, columns (select_rows mask (with_metrics 30 high low df)) !! c
             = Some xs → xs = []).
  { intros Hno.
    assert (Hfalse : ∀ i, mask !! i ≠ Some true).
    { intros i Hi. apply (Hno i). apply mask_passes; [congruence|done]. }
    split; [by apply select_all_false|].
    intros c xs. cbn [columns select_rows]. rewrite lookup_fmap.
    destruct (columns (with_metrics 30 high low df) !! c); [|done].
    intros [= <-]. by apply select_all_false. }
  eexists l, s', _, _, z, volume.
  split; [exact Hrun|]. split; [exact Ha|]. split; [exact Hself|].
  split; [exact Hout|]. split; [apply with_metrics_z_score|].
  split; [exact Hmv|].
  split; [cbn [columns select_rows]; apply dom_fmap_L|].
  split; [|exact Hquiet].
  intros Hshort. apply Hquiet. intros i Hp.
  pose proof Hp as (zi & _ & _ & Hzi & _).
  pose proof (lookup_lt_Some _ _ _ Hzi) as Hi.
  unfold z in Hi. rewrite z_series_length in Hi.
  destruct (lookup_lt_is_Some_2 (needle_series high low) i Hi) as [x Hx].
  revert Hp. apply nan_z_never_passes.
  apply (short_history 30 _ _ x Hx).
  unfold z in Hlz. rewrite z_series_length in Hlz.
  unfold default_window in Hshort. lia.
Qed.

(** An instance: a batch of three bars. *)
Lemma quiet_batch_gives_an_empty_frame_witness :
  holds_market_data short_state (feed_of short_bars) ∧
  ∃ l s' m a z volume,
    identify_fat_fingers (Fin (1 # 2)) (Fin 1) short_state = (Ok l, s') ∧
    heap s' !! l = Some a ∧
    self_anomalies s' = l ∧
    outcome (_calculate_metrics default_window short_state) = Ok (Some m) ∧
    columns m !! "z_score" = Some z ∧
    columns m !! "Volume" = Some volume ∧
    dom (columns a) = dom (columns m) ∧
    (Z.of_nat (length (index (feed_of short_bars))) < default_window →
     index a = [] ∧ ∀ c xs, columns a !! c = Some xs → xs = []) ∧
    ((∀ i, ¬ passes (Fin (1 # 2)) (Fin 1) z volume i) →
     index a = [] ∧ ∀ c xs, columns a !! c = Some xs → xs = []).
Proof.
  split; [exact short_state_holds|].
  exact (quiet_batch_gives_an_empty_frame (Fin (1 # 2)) (Fin 1) _ _
           short_state_holds).
Defined.

(** C1: the detector keeps exactly the rows at which both conditions hold,
    the z-score is defined and strictly above [z_threshold] and the volume is
    strictly above the rolling mean of the volume times [vol_multiplier];
    a row at which one of the two fails, or at which a side of the volume
    comparison is NaN, is not kept; the rows kept are in input order. *)
Theorem fat_fingers_need_both_conditions zt vm s df :
  holds_market_data s df →
  ∃ l s' m a z volume pos,
    identify_fat_fingers zt vm s = (Ok l, s') ∧
    heap s' !! l = Some a ∧
    self_anomalies s' = l ∧
    outcome (_calculate_metrics default_window s) = Ok (Some m) ∧
    columns m !! "z_score" = Some z ∧
    columns m !! "Volume" = Some volume ∧
    (∀ i, i ∈ pos ↔ passes zt vm z volume i) ∧
    StronglySorted lt pos ∧
    rows_at pos m a ∧
    (∀ i zi vi ai,
       z !! i = Some zi → volume !! i = Some vi →
       avg_vol_series volume !! i = Some ai →
       (i ∈ pos ↔ (defined zi ∧ float_lt zt zi) ∧ float_lt (mul ai vm) vi) ∧
       (¬ float_lt zt zi ∨ ¬ float_lt (mul ai vm) vi → i ∉ pos) ∧
       (zi = NaN ∨ vi = NaN ∨ ai = NaN ∨ mul ai vm = NaN → i ∉ pos)).
Proof.
  intros Hm.
  destruct (detection zt vm s df Hm)
    as (high & low & volume & l & s' & Hh & Hl & Hv & Hrun & Hself & Ha & Hout
        & Hwf & Hmv & Hlz & Hlv).
  set (z := z_series 30 (needle_series high low)) in *.
  set (mask := fat_finger_mask z volume zt vm) in *.
  assert (Hpass : ∀ i, i ∈ kept mask ↔ passes zt vm z volume i).
  { intros i. rewrite elem_of_kept. apply mask_passes. congruence. }
  eexists l, s', _, _, z, volume, (kept mask).
  split; [exact Hrun|]. split; [exact Ha|]. split; [exact Hself|].
  split; [exact Hout|]. split; [apply with_metrics_z_score|].
  split; [exact Hmv|]. split; [exact Hpass|].
  split; [apply kept_sorted|].
  split.
  { apply select_rows_wf; [done|].
    unfold mask. rewrite fat_finger_mask_length by congruence. done. }
  intros i zi vi ai Hzi Hvi Hai.
  assert (Hiff : i ∈ kept mask ↔
                 (defined zi ∧ float_lt zt zi) ∧ float_lt (mul ai vm) vi).
  { rewrite Hpass. split.
    - intros (zi' & vi' & ai' & Hzi' & Hvi' & Hai' & H1 & H2).
      simplify_eq. split; [|done]. split; [|done].
      by destruct (float_lt_defined _ _ H1).
    - intros [[_ H1] H2]. by exists zi, vi, ai. }
  split; [exact Hiff|]. split.
  - rewrite Hiff. tauto.
  - rewrite Hiff. intros Hnan [[Hdef H1] H2].
    destruct (float_lt_defined _ _ H2) as [Hd1 Hd2].
    destruct Hnan as [->|[->|[->|Hmul]]]; done.
Qed.

(** An instance: the spike batch with both thresholds at 5, where the last bar is kept. *)
Lemma fat_fingers_need_both_conditions_witness :
  holds_market_data spike_state (feed_of spike_bars) ∧
  ∃ l s' m a z volume pos,
    identify_fat_fingers (Fin 5) (Fin 5) spike_state = (Ok l, s') ∧
    heap s' !! l = Some a ∧
    self_anomalies s' = l ∧
    outcome (_calculate_metrics default_window spike_state) = Ok (Some m) ∧
    columns m !! "z_score" = Some z ∧
    columns m !! "Volume" = Some volume ∧
    (∀ i, i ∈ pos ↔ passes (Fin 5) (Fin 5) z volume i) ∧
    StronglySorted lt pos ∧
    rows_at pos m a ∧
    (∀ i zi vi ai,
       z !! i = Some zi → volume !! i = Some vi →
       avg_vol_series volume !! i = Some ai →
       (i ∈ pos ↔ (defined zi ∧ float_lt (Fin 5) zi) ∧
                  float_lt (mul ai (Fin 5)) vi) ∧
       (¬ float_lt (Fin 5) zi ∨ ¬ float_lt (mul ai (Fin 5)) vi → i ∉ pos) ∧
       (zi = NaN ∨ vi = NaN ∨ ai = NaN ∨ mul ai (Fin 5) = NaN → i ∉ pos)).
Proof.
  split; [exact spike_state_holds|].
  exact (fat_fingers_need_both_conditions (Fin 5) (Fin 5) _ _ spike_state_holds).
Defined.

(** C2, the claim as stated fails: a negative [z_threshold] and a negative
    [vol_multiplier] are accepted, the detector runs and returns two rows; a
    window of zero is accepted by the metrics calculator. *)
Lemma negative_parameters_are_accepted :
  (∃ l s' a,
     identify_fat_fingers (Fin (-1)) (Fin (-1)) spike_state = (Ok l, s') ∧
     heap s' !! l = Some a ∧ index a = [29; 30]) ∧
  (∃ l s' m,
     _calculate_metrics 0 spike_state = (Ok l, s') ∧
     heap s' !! l = Some m ∧ length (index m) = 31%nat).
Proof.
  split.
  - eexists _, _, _. split; [vm_compute; reflexivity|].
    split; [vm_compute; reflexivity|]. reflexivity.
  - eexists _, _, _. split; [vm_compute; reflexivity|].
    split; [vm_compute; reflexivity|]. reflexivity.
Qed.

(** C2, amended: the program has no parameter validation.  The detector
    accepts every [z_threshold] and [vol_multiplier], the negative ones
    included, and returns a frame; it has no window parameter.  The metrics
    calculator accepts the window 0 and returns a frame whose
    [rolling_mean], [rolling_std] and [z_score] are NaN throughout; a
    negative window is refused by [rolling] with a [ValueError], raised
    after [needle_pct] has been stored in the copy. *)
Theorem parameters_are_not_validated zt vm w s df :
  holds_market_data s df →
  (∃ l s' a, identify_fat_fingers zt vm s = (Ok l, s') ∧ heap s' !! l = Some a) ∧
  (w = 0 →
   ∃ l s' m mean std z,
     _calculate_metrics w s = (Ok l, s') ∧
     heap s' !! l = Some m ∧
     columns m !! "rolling_mean" = Some mean ∧
     columns m !! "rolling_std" = Some std ∧
     columns m !! "z_score" = Some z ∧
     ∀ i, (i < length (index df))%nat →
          mean !! i = Some NaN ∧ std !! i = Some NaN ∧ z !! i = Some NaN) ∧
  (w < 0 →
   ∃ msg s' l c needle,
     _calculate_metrics w s = (Raise (ValueError msg), s') ∧
     heap s !! l = None ∧
     heap s' !! l = Some c ∧
     columns c !! "needle_pct" = Some needle ∧
     length needle = length (index df) ∧
     columns c !! "rolling_mean" = columns df !! "rolling_mean" ∧
     heap s' !! self_data s' = Some df).
Proof.
  intros Hm.
  destruct (detection zt vm s df Hm)
    as (high & low & volume & l & s' & Hh & Hl & Hv & Hrun & Hself & Ha & _).
  destruct Hm as [(Hd & Hwf & _) _].
  assert (Hlen : length (needle_series high low) = length (index df)).
  { rewrite needle_series_length; [by apply (Hwf "Low")|].
    by rewrite (Hwf "High" high), (Hwf "Low" low). }
  split; [by eexists l, s', _|]. split.
  - intros ->.
    eexists _, _, (with_metrics 0 high low df), _, _, _.
    split; [by apply (calculate_metrics_run 0)|].
    split; [simpl; apply lookup_insert_eq|].
    split; [apply with_metrics_rolling_mean|].
    split; [apply with_metrics_rolling_std|].
    split; [apply with_metrics_z_score|].
    intros i Hi.
    destruct (lookup_lt_is_Some_2 (needle_series high low) i ltac:(lia)) as [x Hx].
    by apply (zero_window _ _ x).
  - intros Hw.
    eexists _, _, (fresh (dom (heap s))), (with_needle high low df), _.
    split; [by apply calculate_metrics_negative|].
    split; [apply fresh_heap|].
    split; [simpl; apply lookup_insert_eq|].
    split; [unfold with_needle; column_lookup|].
    split; [exact Hlen|].
    split; [unfold with_needle; cbn [columns set_column];
            by rewrite lookup_insert_ne by discriminate|].
    simpl. rewrite lookup_insert_ne; [done|].
    intros Heq. pose proof (fresh_heap (heap s)) as Hf. rewrite Heq in Hf.
    congruence.
Qed.

(** An instance: the spike batch with both thresholds at -1. *)
Lemma parameters_are_not_validated_witness :
  holds_market_data spike_state (feed_of spike_bars) ∧
  ∃ l s' a,
    identify_fat_fingers (Fin (-1)) (Fin (-1)) spike_state = (Ok l, s') ∧
    heap s' !! l = Some a.
Proof.
  split; [exact spike_state_holds|].
  exact (proj1 (parameters_are_not_validated (Fin (-1)) (Fin (-1)) 0 _ _
                  spike_state_holds)).
Defined.

(** C3, the claim as stated fails: the metrics calculator run with the
    window 2 takes its rolling mean over two rows, while the mean of the
    volume the detector compares with is taken over 30 rows and is NaN on a
    batch of three; the detector of the specification with [w = 2] keeps the
    last row, the program keeps none. *)
Lemma volume_window_is_fixed :
  (∃ m, outcome (_calculate_metrics 2 short_state) = Ok (Some m) ∧
        columns m !! "rolling_mean" =
          Some [NaN; Fin (1 # 100); Fin (51 # 200)]) ∧
  Rolling_mean (MkRolling [Fin 10; Fin 10; Fin 100] 2)
    = [NaN; Fin 10; Fin 55] ∧
  avg_vol_series [Fin 10; Fin 10; Fin 100] = [NaN; NaN; NaN] ∧
  spec_mask 2 (Fin (1 # 2)) (Fin 1)
    [Fin 101; Fin 101; Fin 150] [Fin 100; Fin 100; Fin 100]
    [Fin 10; Fin 10; Fin 100] = [false; false; true] ∧
  (∃ a, outcome (identify_fat_fingers (Fin (1 # 2)) (Fin 1) short_state)
          = Ok (Some a) ∧
        columns a !! "Volume" = Some [] ∧ index a = []).
Proof.
  split; [eexists; split; vm_compute; reflexivity|].
  split; [vm_compute; reflexivity|].
  split; [vm_compute; reflexivity|].
  split; [vm_compute; reflexivity|].
  eexists. split; [vm_compute; reflexivity|]. split; vm_compute; reflexivity.
Qed.

(** C3, amended: inside the detector both windows are 30.  The metrics it
    filters are those of the metrics calculator at its default window 30, the
    mean of the volume is taken over the literal 30, and the detector is the
    detector of the specification at [w = 30]; it has no window parameter,
    and an earlier run of the metrics calculator with another window [w]
    changes nothing.  At the first 29 positions the rolling mean of the
    range and the rolling mean of the volume are both NaN. *)
Theorem detector_windows_are_thirty zt vm w s df :
  holds_market_data s df →
  ∃ high low volume l s' m mean,
    columns df !! "High" = Some high ∧
    columns df !! "Low" = Some low ∧
    columns df !! "Volume" = Some volume ∧
    identify_fat_fingers zt vm s = (Ok l, s') ∧
    default_window = 30 ∧
    outcome (_calculate_metrics default_window s) = Ok (Some m) ∧
    heap s' !! l = Some (select_rows (spec_mask 30 zt vm high low volume) m) ∧
    outcome (identify_fat_fingers zt vm (_calculate_metrics w s).2)
      = outcome (identify_fat_fingers zt vm s) ∧
    columns m !! "rolling_mean" = Some mean ∧
    ∀ i, (i < length (index df))%nat → (i < 29)%nat →
         mean !! i = Some NaN ∧ avg_vol_series volume !! i = Some NaN.
Proof.
  intros Hm.
  destruct (detection zt vm s df Hm)
    as (high & low & volume & l & s' & Hh & Hl & Hv & Hrun & Hself & Ha & Hout
        & Hwf & Hmv & Hlz & Hlv).
  destruct Hm as [(Hd & _) _].
  eexists high, low, volume, l, s', _, _.
  do 3 (split; [done|]). split; [exact Hrun|]. split; [done|].
  split; [exact Hout|]. split; [exact Ha|].
  split.
  { assert (Hd' : heap (_calculate_metrics w s).2
                    !! self_data (_calculate_metrics w s).2 = Some df).
    { destruct (calculate_metrics_extends w s) as ((Hsub & -> & _) & _).
      by eapply lookup_weaken. }
    by rewrite !(identify_fat_fingers_outcome zt vm _ df). }
  split; [apply with_metrics_rolling_mean|].
  intros i Hi Hi29. rewrite z_series_length in Hlz.
  destruct (lookup_lt_is_Some_2 (needle_series high low) i ltac:(lia)) as [x Hx].
  destruct (lookup_lt_is_Some_2 volume i ltac:(lia)) as [v Hvi].
  split.
  - apply (short_history 30 _ _ x Hx). lia.
  - apply (short_history 30 _ _ v Hvi). lia.
Qed.

(** An instance: the spike batch, after a run of the metrics calculator with the window 2. *)
Lemma detector_windows_are_thirty_witness :
  holds_market_data spike_state (feed_of spike_bars) ∧
  ∃ high low volume l s' m mean,
    columns (feed_of spike_bars) !! "High" = Some high ∧
    columns (feed_of spike_bars) !! "Low" = Some low ∧
    columns (feed_of spike_bars) !! "Volume" = Some volume ∧
    identify_fat_fingers (Fin 5) (Fin 5) spike_state = (Ok l, s') ∧
    default_window = 30 ∧
    outcome (_calculate_metrics default_window spike_state) = Ok (Some m) ∧
    heap s' !! l
      = Some (select_rows (spec_mask 30 (Fin 5) (Fin 5) high low volume) m) ∧
    outcome (identify_fat_fingers (Fin 5) (Fin 5)
               (_calculate_metrics 2 spike_state).2)
      = outcome (identify_fat_fingers (Fin 5) (Fin 5) spike_state) ∧
    columns m !! "rolling_mean" = Some mean ∧
    ∀ i, (i < length (index (feed_of spike_bars)))%nat → (i < 29)%nat →
         mean !! i = Some NaN ∧ avg_vol_series volume !! i = Some NaN.
Proof.
  split; [exact spike_state_holds|].
  exact (detector_windows_are_thirty (Fin 5) (Fin 5) 2 _ _ spike_state_holds).
Defined.

(** C4, the claim as stated fails: for a bar with a low of zero and a high
    of one, [needle_pct] is plus infinity, not NaN. *)
Lemma zero_low_needle_is_infinite :
  columns (feed_of zero_low_bars) !! "Low" = Some [Fin 0] ∧
  columns (feed_of zero_low_bars) !! "High" = Some [Fin 1] ∧
  ∃ m, outcome (_calculate_metrics default_window zero_low_state) = Ok (Some m) ∧
       columns m !! "needle_pct" = Some [PInf] ∧
       is_inf PInf = true ∧ is_nan PInf = false.
Proof.
  split; [vm_compute; reflexivity|]. split; [vm_compute; reflexivity|].
  eexists. split; [vm_compute; reflexivity|].
  split; [vm_compute; reflexivity|]. done.
Qed.

(** C4, amended: for a row whose low is zero no exception is raised;
    [needle_pct] is never finite there: it is NaN when the high is zero as
    well and an infinity when the high is any other finite number.  The rolling
    mean, the rolling deviation and the z-score of the row are NaN and the
    detector never keeps the row. *)
Theorem zero_low_is_never_flagged zt vm w s df low i q :
  holds_market_data s df → 0 ≤ w →
  columns df !! "Low" = Some low →
  low !! i = Some (Fin q) → (q == 0)%Q →
  (∃ l s' m high needle mean std z x,
     _calculate_metrics w s = (Ok l, s') ∧
     heap s' !! l = Some m ∧
     columns df !! "High" = Some high ∧
     columns m !! "needle_pct" = Some needle ∧
     columns m !! "rolling_mean" = Some mean ∧
     columns m !! "rolling_std" = Some std ∧
     columns m !! "z_score" = Some z ∧
     needle !! i = Some x ∧
     (x = NaN ∨ x = PInf ∨ x = NInf) ∧
     (∀ h, high !! i = Some (Fin h) →
           ((h == 0)%Q → x = NaN) ∧
           (¬ (h == 0)%Q → x = PInf ∨ x = NInf)) ∧
     mean !! i = Some NaN ∧
     std !! i = Some NaN ∧
     z !! i = Some NaN) ∧
  (∃ l s' m a z volume pos,
     identify_fat_fingers zt vm s = (Ok l, s') ∧
     heap s' !! l = Some a ∧
     outcome (_calculate_metrics default_window s) = Ok (Some m) ∧
     columns m !! "z_score" = Some z ∧
     columns m !! "Volume" = Some volume ∧
     (∀ j, j ∈ pos ↔ passes zt vm z volume j) ∧
     rows_at pos m a ∧
     i ∉ pos).
Proof.
  intros Hm Hw Hlow Hi Hq.
  destruct (detection zt vm s df Hm)
    as (high & low' & volume & l & s' & Hh & Hl & Hv & Hrun & Hself & Ha & Hout
        & Hwf & Hmv & Hlz & Hlv).
  assert (low' = low) as -> by congruence.
  destruct Hm as [(Hd & Hwfd & _) _].
  assert (Hhl : length high = length low).
  { by rewrite (Hwfd "High" high), (Hwfd "Low" low). }
  destruct (lookup_lt_is_Some_2 high i) as [h Hhi].
  { rewrite Hhl. by eapply lookup_lt_Some. }
  pose proof (needle_series_lookup high low i h (Fin q) Hhi Hi) as Hx.
  assert (Hnf : div (sub h (Fin q)) (Fin q) = NaN ∨
                div (sub h (Fin q)) (Fin q) = PInf ∨
                div (sub h (Fin q)) (Fin q) = NInf)
    by by apply div_zero_not_finite.
  assert (Hobs : observation (div (sub h (Fin q)) (Fin q)) = None).
  { by destruct Hnf as [->|[->| ->]]. }
  split.
  - destruct (not_finite_z_score (Z.to_nat w) _ _ _ Hx Hobs) as (Hmean & Hstd & Hz).
    eexists _, _, (with_metrics (Z.to_nat w) high low df), high, _, _, _, _, _.
    split; [by apply calculate_metrics_run|].
    split; [simpl; apply lookup_insert_eq|].
    split; [done|].
    split; [apply with_metrics_needle_pct|].
    split; [apply with_metrics_rolling_mean|].
    split; [apply with_metrics_rolling_std|].
    split; [apply with_metrics_z_score|].
    split; [exact Hx|]. split; [exact Hnf|].
    split.
    { intros h' Hh'. assert (h = Fin h') as -> by congruence.
      by apply zero_low_needle. }
    split; [exact Hmean|]. split; [exact Hstd|exact Hz].
  - set (z := z_series 30 (needle_series high low)) in *.
    set (mask := fat_finger_mask z volume zt vm) in *.
    assert (Hpass : ∀ j, j ∈ kept mask ↔ passes zt vm z volume j).
    { intros j. rewrite elem_of_kept. apply mask_passes. congruence. }
    eexists l, s', _, _, z, volume, (kept mask).
    split; [exact Hrun|]. split; [exact Ha|]. split; [exact Hout|].
    split; [apply with_metrics_z_score|].
    split; [exact Hmv|]. split; [exact Hpass|].
    split.
    { apply select_rows_wf; [done|].
      unfold mask. rewrite fat_finger_mask_length by congruence. done. }
    rewrite Hpass. apply nan_z_never_passes.
    by apply (not_finite_z_score _ _ _ _ Hx Hobs).
Qed.

(** An instance: one bar with a low of zero. *)
Lemma zero_low_is_never_flagged_witness :
  holds_market_data zero_low_state (feed_of zero_low_bars) ∧ 0 ≤ 30 ∧
  columns (feed_of zero_low_bars) !! "Low" = Some [Fin 0] ∧
  [Fin 0] !! 0%nat = Some (Fin 0) ∧ (0 == 0)%Q ∧
  (∃ l s' m high needle mean std z x,
     _calculate_metrics 30 zero_low_state = (Ok l, s') ∧
     heap s' !! l = Some m ∧
     columns (feed_of zero_low_bars) !! "High" = Some high ∧
     columns m !! "needle_pct" = Some needle ∧
     columns m !! "rolling_mean" = Some mean ∧
     columns m !! "rolling_std" = Some std ∧
     columns m !! "z_score" = Some z ∧
     needle !! 0%nat = Some x ∧
     (x = NaN ∨ x = PInf ∨ x = NInf) ∧
     (∀ h, high !! 0%nat = Some (Fin h) →
           ((h == 0)%Q → x = NaN) ∧
           (¬ (h == 0)%Q → x = PInf ∨ x = NInf)) ∧
     mean !! 0%nat = Some NaN ∧
     std !! 0%nat = Some NaN ∧
     z !! 0%nat = Some NaN) ∧
  (∃ l s' m a z volume pos,
     identify_fat_fingers (Fin 5) (Fin 5) zero_low_state = (Ok l, s') ∧
     heap s' !! l = Some a ∧
     outcome (_calculate_metrics default_window zero_low_state) = Ok (Some m) ∧
     columns m !! "z_score" = Some z ∧
     columns m !! "Volume" = Some volume ∧
     (∀ j, j ∈ pos ↔ passes (Fin 5) (Fin 5) z volume j) ∧
     rows_at pos m a ∧
     0%nat ∉ pos).
Proof.
  assert (H1 : columns (feed_of zero_low_bars) !! "Low" = Some [Fin 0])
    by (vm_compute; reflexivity).
  assert (H2 : [Fin 0] !! 0%nat = Some (Fin 0)) by reflexivity.
  assert (H3 : (0 == 0)%Q) by reflexivity.
  split; [exact zero_low_state_holds|]. split; [lia|].
  split; [exact H1|]. split; [exact H2|]. split; [exact H3|].
  exact (zero_low_is_never_flagged (Fin 5) (Fin 5) 30 _ _ _ 0%nat 0%Q
           zero_low_state_holds ltac:(lia) H1 H2 H3).
Defined.

(** ** Runs of the other methods *)

Lemma fetch_market_data_run download period interval s :
  let feed := download (self_ticker s) period interval in
  let l := fresh (dom (heap s)) in
  let s' := set_self_data l
              (set_heap (<[l := feed]> (heap s))
                 (set_trace
                    (Stdout ("[*] BrilionX Sentinel: Ingesting live feed for "
                             +:+ self_ticker s +:+ "...") :: trace s) s)) in
  fetch_market_data download period interval s =
  (if frame_empty feed
   then Raise (ConnectionError "Failed to retrieve market data.")
   else Ok l, s').
Proof.
  intros feed l s'. unfold fetch_market_data.
  rewrite run_gets, run_print, run_alloc, run_modify, run_gets.
  erewrite run_deref by (simpl; apply lookup_insert_eq).
  fold feed. by destruct (frame_empty feed).
Qed.

Lemma export_report_run now format s a :
  heap s !! self_anomalies s = Some a →
  export_report now format s =
  if frame_empty a then
    (Ok tt,
     set_trace
       (Stdout "[!] No fat-finger anomalies detected. Export cancelled."
        :: trace s) s)
  else
    let filename := "Sentinel_Audit_" +:+ replace_char "-" "_" (self_ticker s)
                    +:+ "_" +:+ now +:+ "." +:+ format in
    let files :=
      if decide (format = "csv") then [ToCsv filename a]
      else if decide (format = "json") then [ToJson filename a]
      else [] in
    (Ok tt,
     set_trace
       (Stdout ("[✓] BrilionX Audit Report generated: " +:+ filename)
        :: files ++ trace s) s).
Proof.
  intros Ha. unfold export_report. rewrite run_gets.
  erewrite run_deref by exact Ha.
  destruct (frame_empty a); [done|]. rewrite run_gets.
  destruct (decide (format = "csv")); [done|].
  destruct (decide (format = "json")); [done|].
  by rewrite run_ret.
Qed.

Lemma replace_char_length a b s :
  String.length (replace_char a b s) = String.length s.
Proof. induction s as [|c r IH]; simpl; [done|]. by rewrite IH. Qed.

Lemma replace_char_occurs a b s : a ≠ b → ¬ occurs a (replace_char a b s).
Proof.
  intros Hab. induction s as [|c r IH]; simpl; [tauto|].
  intros [H|H]; [|by apply IH]. by case_decide; simplify_eq.
Qed.

Lemma replace_char_get a b s k c :
  String.get k s = Some c →
  String.get k (replace_char a b s) = Some (if decide (c = a) then b else c).
Proof.
  revert k. induction s as [|c' r IH]; intros k; simpl; [done|].
  destruct k as [|k]; [by intros [= ->]|]. apply IH.
Qed.

Lemma replace_char_id a b s : ¬ occurs a s → replace_char a b s = s.
Proof.
  induction s as [|c r IH]; simpl; [done|]. intros H.
  case_decide; [tauto|]. rewrite IH; [done|tauto].
Qed.

(** * Further properties of the program *)

(** X1: a download that is not empty becomes [self.data]: the method prints
    one line and returns the new reference, the frames stored before are
    untouched, and the two analysis methods called next work on the
    downloaded frame. *)
Theorem fetch_then_detect download period interval w zt vm s :
  frame_empty (download (self_ticker s) period interval) = false →
  ∃ l s',
    fetch_market_data download period interval s = (Ok l, s') ∧
    self_data s' = l ∧
    (l ∉ dom (heap s)) ∧
    heap s' !! l = Some (download (self_ticker s) period interval) ∧
    heap s ⊆ heap s' ∧
    self_anomalies s' = self_anomalies s ∧
    trace s' = (Stdout ("[*] BrilionX Sentinel: Ingesting live feed for "
                        +:+ self_ticker s +:+ "...") :: trace s) ∧
    outcome (_calculate_metrics w s')
      = metrics_outcome w (download (self_ticker s) period interval) ∧
    outcome (identify_fat_fingers zt vm s')
      = anomalies_outcome zt vm (download (self_ticker s) period interval).
Proof.
  intros He. pose proof (fetch_market_data_run download period interval s) as Hrun.
  cbn zeta in Hrun. rewrite He in Hrun.
  eexists _, _. split; [exact Hrun|].
  assert (Hl : heap (set_self_data (fresh (dom (heap s)))
                 (set_heap (<[fresh (dom (heap s)) :=
                               download (self_ticker s) period interval]> (heap s))
                    (set_trace
                       (Stdout ("[*] BrilionX Sentinel: Ingesting live feed for "
                                +:+ self_ticker s +:+ "...") :: trace s) s)))
               !! fresh (dom (heap s))
               = Some (download (self_ticker s) period interval))
    by (simpl; apply lookup_insert_eq).
  split; [done|]. split; [apply is_fresh|]. split; [exact Hl|].
  split; [simpl; apply insert_fresh_subseteq|]. split; [done|].
  split; [done|]. split.
  - by apply calculate_metrics_outcome.
  - by apply identify_fat_fingers_outcome.
Qed.

(** An instance: the spike batch downloaded into a new object. *)
Lemma fetch_then_detect_witness :
  frame_empty (feed_of spike_bars) = false ∧
  ∃ l s',
    fetch_market_data (λ _ _ _, feed_of spike_bars) "2d" "1m" (init "BTC-USD")
      = (Ok l, s') ∧
    self_data s' = l ∧
    (l ∉ dom (heap (init "BTC-USD"))) ∧
    heap s' !! l = Some (feed_of spike_bars) ∧
    heap (init "BTC-USD") ⊆ heap s' ∧
    self_anomalies s' = self_anomalies (init "BTC-USD") ∧
    trace s' = (Stdout ("[*] BrilionX Sentinel: Ingesting live feed for "
                        +:+ self_ticker (init "BTC-USD") +:+ "...") :: trace (init "BTC-USD")) ∧
    outcome (_calculate_metrics 30 s') = metrics_outcome 30 (feed_of spike_bars) ∧
    outcome (identify_fat_fingers (Fin 5) (Fin 5) s')
      = anomalies_outcome (Fin 5) (Fin 5) (feed_of spike_bars).
Proof.
  assert (H : frame_empty (feed_of spike_bars) = false) by (vm_compute; reflexivity).
  split; [exact H|].
  exact (fetch_then_detect (λ _ _ _, feed_of spike_bars) "2d" "1m" 30 (Fin 5)
           (Fin 5) (init "BTC-USD") H).
Defined.

(** X2: a download that is empty raises [ConnectionError], but only after
    [self.data] has been replaced: the object then refers to the empty
    download, not to the batch it held before, and when that download has no
    [High] column the detector called next raises [KeyError]. *)
Theorem failed_fetch_replaces_data download period interval zt vm s :
  frame_empty (download (self_ticker s) period interval) = true →
  ∃ s',
    fetch_market_data download period interval s
      = (Raise (ConnectionError "Failed to retrieve market data."), s') ∧
    (self_data s' ∉ dom (heap s)) ∧
    heap s' !! self_data s' = Some (download (self_ticker s) period interval) ∧
    heap s ⊆ heap s' ∧
    self_anomalies s' = self_anomalies s ∧
    trace s' = (Stdout ("[*] BrilionX Sentinel: Ingesting live feed for "
                        +:+ self_ticker s +:+ "...") :: trace s) ∧
    (columns (download (self_ticker s) period interval) !! "High" = None →
     (identify_fat_fingers zt vm s').1 = Raise (KeyError "High")).
Proof.
  intros He. pose proof (fetch_market_data_run download period interval s) as Hrun.
  cbn zeta in Hrun. rewrite He in Hrun.
  eexists. split; [exact Hrun|].
  split; [apply is_fresh|].
  split; [simpl; apply lookup_insert_eq|].
  split; [simpl; apply insert_fresh_subseteq|]. split; [done|].
  split; [done|].
  intros Hh. unfold identify_fat_fingers.
  erewrite run_bind_raise; [done|].
  apply calculate_metrics_no_high; [simpl; apply lookup_insert_eq|done].
Qed.

(** An instance: an empty download after the spike batch was analysed. *)
Lemma failed_fetch_replaces_data_witness :
  frame_empty empty_frame = true ∧
  ∃ s',
    fetch_market_data (λ _ _ _, empty_frame) "2d" "1m" spike_detected_state
      = (Raise (ConnectionError "Failed to retrieve market data."), s') ∧
    (self_data s' ∉ dom (heap spike_detected_state)) ∧
    heap s' !! self_data s' = Some empty_frame ∧
    heap spike_detected_state ⊆ heap s' ∧
    self_anomalies s' = self_anomalies spike_detected_state ∧
    trace s' = (Stdout ("[*] BrilionX Sentinel: Ingesting live feed for "
                        +:+ self_ticker spike_detected_state +:+ "...") :: trace spike_detected_state) ∧
    (columns empty_frame !! "High" = None →
     (identify_fat_fingers (Fin 5) (Fin 5) s').1 = Raise (KeyError "High")).
Proof.
  assert (H : frame_empty empty_frame = true) by reflexivity.
  split; [exact H|].
  exact (failed_fetch_replaces_data (λ _ _ _, empty_frame) "2d" "1m" (Fin 5)
           (Fin 5) spike_detected_state H).
Defined.

(** X3: on a new object, before any download, both analysis methods raise
    [KeyError] for [High]; [self.anomalies] stays the empty frame of the
    constructor, and [export_report] called next prints that the export is
    cancelled and writes no file. *)
Theorem detect_before_fetch ticker w zt vm now format :
  (_calculate_metrics w (init ticker)).1 = Raise (KeyError "High") ∧
  (identify_fat_fingers zt vm (init ticker)).1 = Raise (KeyError "High") ∧
  let s := (identify_fat_fingers zt vm (init ticker)).2 in
  self_anomalies s = self_anomalies (init ticker) ∧
  heap s !! self_anomalies s = Some empty_frame ∧
  (export_report now format s).1 = Ok tt ∧
  written (trace (export_report now format s).2) = [] ∧
  printed (trace (export_report now format s).2)
    = ["[!] No fat-finger anomalies detected. Export cancelled."].
Proof.
  assert (Hd : heap (init ticker) !! self_data (init ticker) = Some empty_frame)
    by reflexivity.
  assert (Hh : columns empty_frame !! "High" = None) by reflexivity.
  pose proof (calculate_metrics_no_high w (init ticker) _ Hd Hh) as Hc.
  pose proof (calculate_metrics_no_high default_window (init ticker) _ Hd Hh) as Hc'.
  assert (Hi : identify_fat_fingers zt vm (init ticker) =
               (Raise (KeyError "High"),
                set_heap (<[fresh (dom (heap (init ticker))) := empty_frame]>
                            (heap (init ticker))) (init ticker))).
  { unfold identify_fat_fingers. by erewrite run_bind_raise by exact Hc'. }
  rewrite Hc, Hi. cbn zeta. cbn [fst snd]. split; [done|]. split; [done|].
  set (s := set_heap _ (init ticker)).
  assert (Ha : heap s !! self_anomalies s = Some empty_frame).
  { unfold s. cbn [heap set_heap self_anomalies].
    eapply lookup_weaken; [|apply insert_fresh_subseteq]. reflexivity. }
  split; [done|]. split; [exact Ha|].
  rewrite (export_report_run now format s empty_frame Ha).
  done.
Qed.

(** X4: when the anomaly frame is empty, [export_report] returns normally
    for every format, prints the notice that the export is cancelled, and
    writes no file; the store is untouched. *)
Theorem export_report_empty now format s a :
  heap s !! self_anomalies s = Some a →
  frame_empty a = true →
  (export_report now format s).1 = Ok tt ∧
  written (trace (export_report now format s).2) = written (trace s) ∧
  printed (trace (export_report now format s).2)
    = "[!] No fat-finger anomalies detected. Export cancelled."
      :: printed (trace s) ∧
  heap (export_report now format s).2 = heap s.
Proof.
  intros Ha He. rewrite (export_report_run now format s a Ha), He. done.
Qed.

(** An instance: the short batch after a detection run, exported as "csv". *)
Lemma export_report_empty_witness :
  heap short_detected_state !! self_anomalies short_detected_state
    = Some (select_rows [false; false; false]
              (with_metrics 30 [Fin 101; Fin 101; Fin 150]
                 [Fin 100; Fin 100; Fin 100] (feed_of short_bars))) ∧
  frame_empty (select_rows [false; false; false]
                 (with_metrics 30 [Fin 101; Fin 101; Fin 150]
                    [Fin 100; Fin 100; Fin 100] (feed_of short_bars))) = true ∧
  (export_report "20260101_120000" "csv" short_detected_state).1 = Ok tt ∧
  written (trace (export_report "20260101_120000" "csv" short_detected_state).2)
    = written (trace short_detected_state).
Proof.
  assert (H1 : heap short_detected_state !! self_anomalies short_detected_state
    = Some (select_rows [false; false; false]
              (with_metrics 30 [Fin 101; Fin 101; Fin 150]
                 [Fin 100; Fin 100; Fin 100] (feed_of short_bars))))
    by (vm_compute; reflexivity).
  assert (H2 : frame_empty (select_rows [false; false; false]
                 (with_metrics 30 [Fin 101; Fin 101; Fin 150]
                    [Fin 100; Fin 100; Fin 100] (feed_of short_bars))) = true)
    by (vm_compute; reflexivity).
  split; [exact H1|]. split; [exact H2|].
  destruct (export_report_empty "20260101_120000" "csv" _ _ H1 H2) as (Ha & Hb & _).
  split; [exact Ha | exact Hb].
Defined.

(** X5: when the anomaly frame is not empty and the format is "csv" or
    "json", [export_report] writes exactly one file, with the writer of that
    format and the anomaly frame as content, then prints the confirmation.
    The file is named [Sentinel_Audit_<name>_<now>.<format>], where [name]
    is the ticker with every hyphen replaced by an underscore: it has the
    length of the ticker, an underscore at every position where the ticker
    has a hyphen and the ticker's own character at every other position. *)
Theorem export_report_writes_one_file now format s a :
  heap s !! self_anomalies s = Some a →
  frame_empty a = false →
  format = "csv" ∨ format = "json" →
  ∃ name filename,
    String.length name = String.length (self_ticker s) ∧
    (∀ k c, String.get k (self_ticker s) = Some c →
            (c = "-"%char → String.get k name = Some "_"%char) ∧
            (c ≠ "-"%char → String.get k name = Some c)) ∧
    ¬ occurs "-" name ∧
    (¬ occurs "-" (self_ticker s) → name = self_ticker s) ∧
    filename = "Sentinel_Audit_" +:+ name +:+ "_" +:+ now +:+ "." +:+ format ∧
    (export_report now format s).1 = Ok tt ∧
    trace (export_report now format s).2
      = Stdout ("[✓] BrilionX Audit Report generated: " +:+ filename)
        :: (if decide (format = "csv") then ToCsv filename a
            else ToJson filename a)
        :: trace s ∧
    written (trace (export_report now format s).2)
      = filename :: written (trace s) ∧
    heap (export_report now format s).2 = heap s.
Proof.
  intros Ha He Hf.
  exists (replace_char "-" "_" (self_ticker s)). eexists.
  split; [apply replace_char_length|].
  split.
  { intros k c Hk. rewrite (replace_char_get _ _ _ _ _ Hk).
    split; intros Hc; by case_decide. }
  split; [by apply replace_char_occurs|].
  split; [apply replace_char_id|].
  split; [reflexivity|].
  rewrite (export_report_run now format s a Ha), He. cbn zeta.
  destruct Hf as [-> | ->]; done.
Qed.

(** An instance: the spike batch after detection, exported as "json". *)
Lemma export_report_writes_one_file_witness :
  heap spike_detected_state !! self_anomalies spike_detected_state
    = Some spike_anomalies ∧
  frame_empty spike_anomalies = false ∧
  ("json" = "csv" ∨ "json" = "json") ∧
  ∃ name filename,
    String.length name = String.length (self_ticker spike_detected_state) ∧
    (∀ k c, String.get k (self_ticker spike_detected_state) = Some c →
            (c = "-"%char → String.get k name = Some "_"%char) ∧
            (c ≠ "-"%char → String.get k name = Some c)) ∧
    ¬ occurs "-" name ∧
    (¬ occurs "-" (self_ticker spike_detected_state)
     → name = self_ticker spike_detected_state) ∧
    filename = "Sentinel_Audit_" +:+ name +:+ "_" +:+ "20260101_120000"
               +:+ "." +:+ "json" ∧
    (export_report "20260101_120000" "json" spike_detected_state).1 = Ok tt ∧
    trace (export_report "20260101_120000" "json" spike_detected_state).2
      = Stdout ("[✓] BrilionX Audit Report generated: " +:+ filename)
        :: (if decide ("json" = "csv") then ToCsv filename spike_anomalies
            else ToJson filename spike_anomalies)
        :: trace spike_detected_state ∧
    written (trace (export_report "20260101_120000" "json" spike_detected_state).2)
      = filename :: written (trace spike_detected_state) ∧
    heap (export_report "20260101_120000" "json" spike_detected_state).2
      = heap spike_detected_state.
Proof.
  assert (H1 : heap spike_detected_state !! self_anomalies spike_detected_state
               = Some spike_anomalies) by (vm_compute; reflexivity).
  assert (H2 : frame_empty spike_anomalies = false) by (vm_compute; reflexivity).
  assert (H3 : "json" = "csv" ∨ "json" = "json") by (right; reflexivity).
  split; [exact H1|]. split; [exact H2|]. split; [exact H3|].
  exact (export_report_writes_one_file "20260101_120000" "json" _ _ H1 H2 H3).
Defined.

(** The file written for the spike batch. *)
Example export_report_file_name :
  written (trace (export_report "20260101_120000" "json" spike_detected_state).2)
    = ["Sentinel_Audit_BTC_USD_20260101_120000.json"].
Proof. vm_compute. reflexivity. Qed.

(** X6: the detector raises only for a missing column.  With [self.data]
    referring to a frame, [identify_fat_fingers] raises [KeyError] for the
    first of [High], [Low], [Volume] that is no column and succeeds when all
    three are columns; when it raises, [self.anomalies] and the frame it
    refers to are as before the call, so a later export still reports the
    anomalies of the previous run. *)
Theorem failed_detection_keeps_anomalies zt vm s df a :
  heap s !! self_data s = Some df →
  heap s !! self_anomalies s = Some a →
  let r := identify_fat_fingers zt vm s in
  (∀ e, r.1 = Raise e →
        (∃ c, e = KeyError c ∧ columns df !! c = None ∧
              c ∈ ["High"; "Low"; "Volume"]) ∧
        self_anomalies r.2 = self_anomalies s ∧
        heap r.2 !! self_anomalies r.2 = Some a) ∧
  (is_Some (columns df !! "High") → is_Some (columns df !! "Low") →
   is_Some (columns df !! "Volume") → ∃ l, r.1 = Ok l ∧ self_anomalies r.2 = l) ∧
  (columns df !! "High" = None → r.1 = Raise (KeyError "High")) ∧
  (is_Some (columns df !! "High") → columns df !! "Low" = None →
   r.1 = Raise (KeyError "Low")) ∧
  (is_Some (columns df !! "High") → is_Some (columns df !! "Low") →
   columns df !! "Volume" = None → r.1 = Raise (KeyError "Volume")).
Proof.
  intros Hd Ha r.
  assert (Hkeep : ∀ x, heap (set_heap (<[fresh (dom (heap s)) := x]> (heap s)) s)
                         !! self_anomalies s = Some a).
  { intros x. simpl. eapply lookup_weaken; [exact Ha|apply insert_fresh_subseteq]. }
  assert (Hcase : ∀ c x,
            columns df !! c = None → c ∈ ["High"; "Low"; "Volume"] →
            r = (Raise (KeyError c),
                 set_heap (<[fresh (dom (heap s)) := x]> (heap s)) s) →
            ∀ e, r.1 = Raise e →
              (∃ c, e = KeyError c ∧ columns df !! c = None ∧
                    c ∈ ["High"; "Low"; "Volume"]) ∧
              self_anomalies r.2 = self_anomalies s ∧
              heap r.2 !! self_anomalies r.2 = Some a).
  { intros c x Hc Hin -> e [= <-]. cbn [fst snd].
    split; [by exists c|]. split; [done|apply Hkeep]. }
  destruct (columns df !! "High") as [high|] eqn:Hh.
  2: { assert (Hr : r = (Raise (KeyError "High"),
                         set_heap (<[fresh (dom (heap s)) := df]> (heap s)) s)).
       { unfold r, identify_fat_fingers.
         by erewrite run_bind_raise by by apply calculate_metrics_no_high. }
       split; [apply (Hcase "High" df Hh); [compute_done|exact Hr]|].
       rewrite Hr. cbn [fst snd].
       split_and!; first [done | by intros [??] | by intros _ [??]]. }
  destruct (columns df !! "Low") as [low|] eqn:Hl.
  2: { assert (Hr : r = (Raise (KeyError "Low"),
                         set_heap (<[fresh (dom (heap s)) := df]> (heap s)) s)).
       { unfold r, identify_fat_fingers.
         by erewrite run_bind_raise by by eapply calculate_metrics_no_low. }
       split; [apply (Hcase "Low" df Hl); [compute_done|exact Hr]|].
       rewrite Hr. cbn [fst snd].
       split_and!; first [done | by intros _ [??]]. }
  destruct (columns df !! "Volume") as [volume|] eqn:Hv.
  2: { assert (Hr : r = (Raise (KeyError "Volume"),
                         set_heap (<[fresh (dom (heap s)) :=
                                       with_metrics 30 high low df]> (heap s)) s))
         by by apply identify_fat_fingers_no_volume.
       split; [apply (Hcase "Volume" (with_metrics 30 high low df) Hv);
                [compute_done|exact Hr]|].
       rewrite Hr. cbn [fst snd].
       split_and!; first [done | by intros _ _ [??]]. }
  unfold r. rewrite (identify_fat_fingers_run zt vm s df high low volume) by done.
  cbn zeta. cbn [fst snd].
  split; [by intros e [=]|]. split; [intros _ _ _; by eexists|].
  split_and!; done.
Qed.

(** An instance: a feed without the volume column, downloaded after a
    detection run on the spike batch. *)
Lemma failed_detection_keeps_anomalies_witness :
  heap no_volume_state !! self_data no_volume_state = Some no_volume_feed ∧
  heap no_volume_state !! self_anomalies no_volume_state = Some spike_anomalies ∧
  (identify_fat_fingers (Fin 5) (Fin 5) no_volume_state).1
    = Raise (KeyError "Volume") ∧
  heap (identify_fat_fingers (Fin 5) (Fin 5) no_volume_state).2
    !! self_anomalies (identify_fat_fingers (Fin 5) (Fin 5) no_volume_state).2
    = Some spike_anomalies.
Proof.
  assert (H1 : heap no_volume_state !! self_data no_volume_state
               = Some no_volume_feed) by (vm_compute; reflexivity).
  assert (H2 : heap no_volume_state !! self_anomalies no_volume_state
               = Some spike_anomalies) by (vm_compute; reflexivity).
  split; [exact H1|]. split; [exact H2|].
  destruct (failed_detection_keeps_anomalies (Fin 5) (Fin 5) _ _ _ H1 H2)
    as (Hraise & _ & _ & _ & Hvol).
  assert (H3 : (identify_fat_fingers (Fin 5) (Fin 5) no_volume_state).1
               = Raise (KeyError "Volume")).
  { apply Hvol; [eexists; reflexivity..|reflexivity]. }
  split; [exact H3|].
  exact (proj2 (proj2 (Hraise _ H3))).
Defined.

(** ** Prefixes of a batch *)

Lemma window_at_take w i n xs :
  (i < n)%nat → window_at w i (take n xs) = window_at w i xs.
Proof.
  intros Hi. unfold window_at. rewrite take_take.
  by replace (min (i + 1) n) with (i + 1)%nat by lia.
Qed.

Lemma Rolling_mean_take w n xs :
  Rolling_mean (MkRolling (take n xs) w) = take n (Rolling_mean (MkRolling xs w)).
Proof.
  apply list_eq. intros i.
  rewrite Rolling_mean_lookup, !lookup_take, Rolling_mean_lookup.
  case_decide; [|done]. unfold observations. by rewrite window_at_take.
Qed.

Lemma Rolling_std_take w n xs :
  Rolling_std (MkRolling (take n xs) w) = take n (Rolling_std (MkRolling xs w)).
Proof.
  apply list_eq. intros i.
  rewrite Rolling_std_lookup, !lookup_take, Rolling_std_lookup.
  case_decide; [|done]. unfold observations. by rewrite window_at_take.
Qed.

Lemma z_series_take w n xs : z_series w (take n xs) = take n (z_series w xs).
Proof.
  unfold z_series, series_div, series_sub.
  by rewrite Rolling_mean_take, Rolling_std_take, <- !zip_with_take.
Qed.

Lemma needle_series_take n high low :
  needle_series (take n high) (take n low) = take n (needle_series high low).
Proof.
  unfold needle_series, series_div, series_sub. by rewrite <- !zip_with_take.
Qed.

Lemma fat_finger_mask_take n z volume zt vm :
  fat_finger_mask (take n z) (take n volume) zt vm
  = take n (fat_finger_mask z volume zt vm).
Proof.
  unfold fat_finger_mask, mask_and, series_gt_scalar, series_gt,
    series_mul_scalar, avg_vol_series.
  by rewrite Rolling_mean_take, !fmap_take, <- !zip_with_take.
Qed.

Lemma with_metrics_take w n high low df :
  with_metrics w (take n high) (take n low) (frame_take n df)
  = frame_take n (with_metrics w high low df).
Proof.
  unfold with_metrics, with_needle, set_column, frame_take.
  cbn [index columns]. f_equal. rewrite !fmap_insert.
  by rewrite needle_series_take, z_series_take, Rolling_mean_take,
    Rolling_std_take.
Qed.

Lemma select_take_prefix {A} n mask (xs : list A) :
  select (take n mask) (take n xs) `prefix_of` select mask xs.
Proof.
  revert mask xs. induction n as [|n IH]; intros mask xs.
  - rewrite !take_0. apply prefix_nil.
  - destruct mask as [|b mask]; [apply prefix_nil|].
    destruct xs as [|x xs]; [rewrite take_nil, !select_nil_r; apply prefix_nil|].
    simpl take. rewrite !select_cons. destruct b; [apply prefix_cons|]; apply IH.
Qed.

(** X10: bars that arrive later change nothing before them.  For the first
    [n] rows of a batch, the metric frame is the first [n] rows of the metric
    frame of the whole batch, and the rows the detector keeps are the first
    of the rows it keeps on the whole batch. *)
Theorem later_bars_change_nothing n w zt vm s s' df :
  holds_market_data s df →
  heap s' !! self_data s' = Some (frame_take n df) →
  0 ≤ w →
  ∃ m a a',
    outcome (_calculate_metrics w s) = Ok (Some m) ∧
    outcome (_calculate_metrics w s') = Ok (Some (frame_take n m)) ∧
    outcome (identify_fat_fingers zt vm s) = Ok (Some a) ∧
    outcome (identify_fat_fingers zt vm s') = Ok (Some a') ∧
    index a' `prefix_of` index a ∧
    ∀ c xs, columns a !! c = Some xs →
            ∃ xs', columns a' !! c = Some xs' ∧ xs' `prefix_of` xs.
Proof.
  intros [(Hd & Hwf & [high Hh] & [low Hl]) [volume Hv]] Hd' Hw.
  assert (Hh' : columns (frame_take n df) !! "High" = Some (take n high))
    by (cbn [columns frame_take]; by rewrite lookup_fmap, Hh).
  assert (Hl' : columns (frame_take n df) !! "Low" = Some (take n low))
    by (cbn [columns frame_take]; by rewrite lookup_fmap, Hl).
  assert (Hv' : columns (frame_take n df) !! "Volume" = Some (take n volume))
    by (cbn [columns frame_take]; by rewrite lookup_fmap, Hv).
  eexists _, _, _.
  rewrite (calculate_metrics_outcome w s df Hd),
    (calculate_metrics_outcome w s' _ Hd'),
    (identify_fat_fingers_outcome zt vm s df Hd),
    (identify_fat_fingers_outcome zt vm s' _ Hd').
  unfold metrics_outcome, anomalies_outcome.
  rewrite Hh, Hl, Hv, Hh', Hl', Hv'.
  destruct (Z.ltb_spec w 0); [lia|].
  split; [reflexivity|]. split; [by rewrite with_metrics_take|].
  split; [reflexivity|]. split; [reflexivity|].
  rewrite needle_series_take, z_series_take, fat_finger_mask_take,
    with_metrics_take.
  split.
  - cbn [index select_rows frame_take]. apply select_take_prefix.
  - intros c xs. cbn [columns select_rows frame_take].
    rewrite !lookup_fmap.
    destruct (columns (with_metrics 30 high low df) !! c) as [ys|]; [|done].
    simpl. intros [= <-]. eexists. split; [reflexivity|].
    apply select_take_prefix.
Qed.

(** An instance: the quiet bars are the first thirty bars of the spike
    batch. *)
Lemma later_bars_change_nothing_witness :
  holds_market_data spike_state (feed_of spike_bars) ∧
  heap (state_of quiet_bars) !! self_data (state_of quiet_bars)
    = Some (frame_take 30 (feed_of spike_bars)) ∧
  0 ≤ 30 ∧
  ∃ m a a',
    outcome (_calculate_metrics 30 spike_state) = Ok (Some m) ∧
    outcome (_calculate_metrics 30 (state_of quiet_bars))
      = Ok (Some (frame_take 30 m)) ∧
    outcome (identify_fat_fingers (Fin 5) (Fin 5) spike_state) = Ok (Some a) ∧
    outcome (identify_fat_fingers (Fin 5) (Fin 5) (state_of quiet_bars))
      = Ok (Some a') ∧
    index a' `prefix_of` index a ∧
    ∀ c xs, columns a !! c = Some xs →
            ∃ xs', columns a' !! c = Some xs' ∧ xs' `prefix_of` xs.
Proof.
  assert (H : heap (state_of quiet_bars) !! self_data (state_of quiet_bars)
              = Some (frame_take 30 (feed_of spike_bars)))
    by (vm_compute; reflexivity).
  split; [exact spike_state_holds|]. split; [exact H|]. split; [lia|].
  exact (later_bars_change_nothing 30 30 (Fin 5) (Fin 5) _ _ _
           spike_state_holds H ltac:(lia)).
Defined.

(** ** The rows the detector keeps *)

Lemma float_lt_trans x y z : float_lt x y → float_lt y z → float_lt x z.
Proof.
  destruct 1; inversion 1; subst; constructor. by eapply Qlt_trans.
Qed.

Lemma select_sublist {A} mask (xs : list A) : select mask xs `sublist_of` xs.
Proof.
  revert xs. induction mask as [|b mask IH]; intros [|x xs];
    rewrite ?select_nil_r; try apply sublist_nil_l.
  rewrite select_cons. destruct b; [apply sublist_skip|apply sublist_cons]; apply IH.
Qed.

(** A mask with fewer positions keeps a part of what the other keeps. *)
Lemma select_mono {A} mask' mask (xs : list A) :
  (∀ i, mask' !! i = Some true → mask !! i = Some true) →
  length mask' = length mask →
  select mask' xs `sublist_of` select mask xs.
Proof.
  revert mask xs.
  induction mask' as [|b' mask' IH]; intros [|b mask] xs H Hlen; try done.
  destruct xs as [|x xs]; [by rewrite !select_nil_r|].
  rewrite !select_cons. injection Hlen as Hlen.
  assert (Hrec : select mask' xs `sublist_of` select mask xs).
  { apply IH; [|done]. intros i. apply (H (S i)). }
  destruct b'.
  - pose proof (H 0%nat eq_refl) as Hb. injection Hb as ->.
    by apply sublist_skip.
  - destruct b; [by apply sublist_cons|done].
Qed.

Lemma select_same_length {A B} mask (xs : list A) (ys : list B) :
  length mask = length xs → length mask = length ys →
  length (select mask xs) = length (select mask ys).
Proof.
  revert xs ys. induction mask as [|b mask IH]; intros [|x xs] [|y ys] Hx Hy;
    try done.
  rewrite !select_cons. injection Hx as Hx. injection Hy as Hy.
  destruct b; simpl; auto.
Qed.

Lemma elem_of_select {A} mask (xs : list A) x :
  x ∈ select mask xs → ∃ i, mask !! i = Some true ∧ xs !! i = Some x.
Proof.
  revert xs. induction mask as [|b mask IH]; intros [|y xs];
    rewrite ?select_nil_r; try (by intros ?%elem_of_nil).
  rewrite select_cons. destruct b.
  - intros [->|Hx]%elem_of_cons; [by exists 0%nat|].
    destruct (IH xs Hx) as (i & ? & ?). by exists (S i).
  - intros Hx. destruct (IH xs Hx) as (i & ? & ?). by exists (S i).
Qed.

Lemma select_rows_well_formed mask m :
  wf_frame m → length mask = length (index m) → wf_frame (select_rows mask m).
Proof.
  intros Hwf Hlen c xs. cbn [columns select_rows index]. rewrite lookup_fmap.
  destruct (columns m !! c) as [ys|] eqn:Hc; [|done]. intros [= <-].
  apply select_same_length; [|done]. by rewrite (Hwf c ys).
Qed.

(** X11: raising [z_threshold] can only remove rows.  For thresholds
    [zt < zt'] and the same multiplier, the index and every column of the
    frame kept at [zt'] are sublists of those kept at [zt]. *)
Theorem higher_threshold_keeps_fewer zt zt' vm s df :
  holds_market_data s df → float_lt zt zt' →
  ∃ a a',
    outcome (identify_fat_fingers zt vm s) = Ok (Some a) ∧
    outcome (identify_fat_fingers zt' vm s) = Ok (Some a') ∧
    index a' `sublist_of` index a ∧
    ∀ c xs, columns a !! c = Some xs →
            ∃ xs', columns a' !! c = Some xs' ∧ xs' `sublist_of` xs.
Proof.
  intros Hm Hlt.
  destruct (detection zt vm s df Hm)
    as (high & low & volume & l & s1 & Hh & Hl & Hv & _ & _ & _ & _ & _ & _
        & Hlz & Hlv).
  destruct Hm as [(Hd & _) _].
  eexists _, _.
  rewrite !(identify_fat_fingers_outcome _ vm s df Hd).
  unfold anomalies_outcome. rewrite Hh, Hl, Hv.
  split; [reflexivity|]. split; [reflexivity|].
  set (z := z_series 30 (needle_series high low)) in *.
  assert (Hmono : ∀ i, fat_finger_mask z volume zt' vm !! i = Some true →
                       fat_finger_mask z volume zt vm !! i = Some true).
  { intros i. rewrite !mask_passes by congruence.
    intros (zi & vi & ai & ? & ? & ? & H1 & H2).
    exists zi, vi, ai. split_and!; try done. by eapply float_lt_trans. }
  assert (Hlen : length (fat_finger_mask z volume zt' vm)
                 = length (fat_finger_mask z volume zt vm)).
  { rewrite !fat_finger_mask_length by congruence. done. }
  split.
  - cbn [index select_rows]. by apply select_mono.
  - intros c xs. cbn [columns select_rows]. rewrite !lookup_fmap.
    destruct (columns (with_metrics 30 high low df) !! c) as [ys|]; [|done].
    simpl. intros [= <-]. eexists. split; [reflexivity|]. by apply select_mono.
Qed.

(** An instance: the spike batch at the thresholds -1 and 5. *)
Lemma higher_threshold_keeps_fewer_witness :
  holds_market_data spike_state (feed_of spike_bars) ∧
  float_lt (Fin (-1)) (Fin 5) ∧
  ∃ a a',
    outcome (identify_fat_fingers (Fin (-1)) (Fin 5) spike_state) = Ok (Some a) ∧
    outcome (identify_fat_fingers (Fin 5) (Fin 5) spike_state) = Ok (Some a') ∧
    index a' `sublist_of` index a ∧
    ∀ c xs, columns a !! c = Some xs →
            ∃ xs', columns a' !! c = Some xs' ∧ xs' `sublist_of` xs.
Proof.
  assert (H : float_lt (Fin (-1)) (Fin 5)) by (constructor; reflexivity).
  split; [exact spike_state_holds|]. split; [exact H|].
  exact (higher_threshold_keeps_fewer (Fin (-1)) (Fin 5) (Fin 5) _ _
           spike_state_holds H).
Defined.

(** X12: the frame the detector returns is well-formed and made of input
    rows.  It has the columns of the input and the four derived columns,
    each with one cell per kept row; its index and every input column are
    sublists of the input's; and every cell of its [z_score] column is
    strictly above [z_threshold]. *)
Theorem kept_rows_are_input_rows zt vm s df :
  holds_market_data s df →
  ∃ l s' a z,
    identify_fat_fingers zt vm s = (Ok l, s') ∧
    heap s' !! l = Some a ∧
    wf_frame a ∧
    dom (columns a) = list_to_set derived_columns ∪ dom (columns df) ∧
    index a `sublist_of` index df ∧
    (∀ c xs, c ∉ derived_columns → columns df !! c = Some xs →
             ∃ xs', columns a !! c = Some xs' ∧ xs' `sublist_of` xs) ∧
    columns a !! "z_score" = Some z ∧
    ∀ zi, zi ∈ z → float_lt zt zi.
Proof.
  intros Hm.
  destruct (detection zt vm s df Hm)
    as (high & low & volume & l & s' & Hh & Hl & Hv & Hrun & Hself & Ha & Hout
        & Hwf & Hmv & Hlz & Hlv).
  set (z := z_series 30 (needle_series high low)) in *.
  set (mask := fat_finger_mask z volume zt vm) in *.
  assert (Hlen : length mask = length (index df)).
  { unfold mask. rewrite fat_finger_mask_length by congruence. done. }
  eexists l, s', _, (select mask z).
  split; [exact Hrun|]. split; [exact Ha|].
  split; [by apply select_rows_well_formed|].
  split.
  { cbn [columns select_rows]. rewrite dom_fmap_L.
    unfold with_metrics, with_needle, set_column. cbn [columns].
    rewrite !dom_insert_L. apply set_eq. intros c.
    rewrite !elem_of_union, !elem_of_singleton, elem_of_list_to_set.
    unfold derived_columns. rewrite !elem_of_cons, elem_of_nil. tauto. }
  split; [apply select_sublist|].
  split.
  { intros c xs Hc Hx. cbn [columns select_rows].
    rewrite lookup_fmap, with_metrics_other, Hx by done.
    eexists. split; [reflexivity|]. apply select_sublist. }
  split.
  { cbn [columns select_rows]. by rewrite lookup_fmap, with_metrics_z_score. }
  intros zi (i & Hmi & Hzi)%elem_of_select.
  apply mask_passes in Hmi as (zi' & vi & ai & Hzi' & _ & _ & Hlt & _);
    [|congruence].
  by assert (zi' = zi) as -> by congruence.
Qed.

(** An instance: the spike batch with both thresholds at 5. *)
Lemma kept_rows_are_input_rows_witness :
  holds_market_data spike_state (feed_of spike_bars) ∧
  ∃ l s' a z,
    identify_fat_fingers (Fin 5) (Fin 5) spike_state = (Ok l, s') ∧
    heap s' !! l = Some a ∧
    wf_frame a ∧
    dom (columns a)
      = list_to_set derived_columns ∪ dom (columns (feed_of spike_bars)) ∧
    index a `sublist_of` index (feed_of spike_bars) ∧
    (∀ c xs, c ∉ derived_columns → columns (feed_of spike_bars) !! c = Some xs →
             ∃ xs', columns a !! c = Some xs' ∧ xs' `sublist_of` xs) ∧
    columns a !! "z_score" = Some z ∧
    ∀ zi, zi ∈ z → float_lt (Fin 5) zi.
Proof.
  split; [exact spike_state_holds|].
  exact (kept_rows_are_input_rows (Fin 5) (Fin 5) _ _ spike_state_holds).
Defined.

(** ** The metrics of a metric frame *)

Lemma set_column_id c xs df :
  columns df !! c = Some xs → set_column c xs df = df.
Proof.
  intros H. destruct df as [idx cols]. unfold set_column. simpl in *.
  by rewrite insert_id.
Qed.

(** X13: the metrics calculator is idempotent on its own output.  When
    [self.data] refers to a frame the calculator returned for the window
    [w], a run with the same window overwrites the four derived columns with
    the values they have and returns an equal frame. *)
Theorem metrics_of_a_metric_frame w s s' df m :
  holds_data s df → 0 ≤ w →
  outcome (_calculate_metrics w s) = Ok (Some m) →
  heap s' !! self_data s' = Some m →
  outcome (_calculate_metrics w s') = Ok (Some m).
Proof.
  intros (Hd & Hwf & [high Hh] & [low Hl]) Hw Hm Hd'.
  rewrite (calculate_metrics_outcome w s df Hd) in Hm.
  rewrite (calculate_metrics_outcome w s' m Hd').
  unfold metrics_outcome in *. rewrite Hh, Hl in Hm.
  destruct (Z.ltb_spec w 0); [lia|]. injection Hm as <-.
  rewrite !with_metrics_other, Hh, Hl by compute_done.
  do 2 f_equal.
  set (m := with_metrics (Z.to_nat w) high low df).
  unfold with_metrics at 1. unfold with_needle.
  rewrite (set_column_id "needle_pct") by apply with_metrics_needle_pct.
  rewrite (set_column_id "rolling_mean") by apply with_metrics_rolling_mean.
  rewrite (set_column_id "rolling_std") by apply with_metrics_rolling_std.
  by rewrite (set_column_id "z_score") by apply with_metrics_z_score.
Qed.

(** An instance: the metric frame of the spike batch, downloaded into a new
    object. *)
Lemma metrics_of_a_metric_frame_witness :
  holds_data spike_state (feed_of spike_bars) ∧ 0 ≤ 30 ∧
  outcome (_calculate_metrics 30 spike_state) = Ok (Some spike_metrics) ∧
  heap spike_metrics_state !! self_data spike_metrics_state = Some spike_metrics ∧
  outcome (_calculate_metrics 30 spike_metrics_state) = Ok (Some spike_metrics).
Proof.
  assert (H1 : outcome (_calculate_metrics 30 spike_state)
               = Ok (Some spike_metrics)) by (vm_compute; reflexivity).
  assert (H2 : heap spike_metrics_state !! self_data spike_metrics_state
               = Some spike_metrics) by (vm_compute; reflexivity).
  split; [exact (proj1 spike_state_holds)|]. split; [lia|].
  split; [exact H1|]. split; [exact H2|].
  exact (metrics_of_a_metric_frame 30 _ _ _ _ (proj1 spike_state_holds)
           ltac:(lia) H1 H2).
Defined.

(** ** A window of identical cells *)

(** X14: a full window of one finite value.  When the [w] cells of
    [needle_pct] that end at a position are one and the same finite number,
    with [w] at least 2, the rolling mean at the position is that number,
    [rolling_std] is zero and the z-score is NaN; with the detector's window
    of 30 the row is never kept. *)
Theorem identical_window_z_score_is_undefined w zt vm s df :
  holds_market_data s df → 1 < w →
  (∃ l s' m needle mean std z,
     _calculate_metrics w s = (Ok l, s') ∧
     heap s' !! l = Some m ∧
     columns m !! "needle_pct" = Some needle ∧
     columns m !! "rolling_mean" = Some mean ∧
     columns m !! "rolling_std" = Some std ∧
     columns m !! "z_score" = Some z ∧
     ∀ i c, (Z.to_nat w ≤ i + 1)%nat →
       (∀ j, (i + 1 - Z.to_nat w ≤ j ≤ i)%nat → needle !! j = Some (Fin c)) →
       (∃ mu, mean !! i = Some (Fin mu) ∧ (mu == c)%Q) ∧
       std !! i = Some (Fin 0) ∧
       z !! i = Some NaN) ∧
  (∃ l s' m a needle z volume pos,
     identify_fat_fingers zt vm s = (Ok l, s') ∧
     heap s' !! l = Some a ∧
     outcome (_calculate_metrics default_window s) = Ok (Some m) ∧
     columns m !! "needle_pct" = Some needle ∧
     columns m !! "z_score" = Some z ∧
     columns m !! "Volume" = Some volume ∧
     (∀ i, i ∈ pos ↔ passes zt vm z volume i) ∧
     rows_at pos m a ∧
     ∀ i c, (30 ≤ i + 1)%nat →
       (∀ j, (i + 1 - 30 ≤ j ≤ i)%nat → needle !! j = Some (Fin c)) →
       i ∉ pos).
Proof.
  intros Hm Hw. split.
  - destruct Hm as [(Hd & Hwf & [high Hh] & [low Hl]) _].
    eexists _, _, (with_metrics (Z.to_nat w) high low df), _, _, _, _.
    split; [apply calculate_metrics_run; [done..|lia]|].
    split; [simpl; apply lookup_insert_eq|].
    split; [apply with_metrics_needle_pct|].
    split; [apply with_metrics_rolling_mean|].
    split; [apply with_metrics_rolling_std|].
    split; [apply with_metrics_z_score|].
    intros i c Hi Hall. apply (identical_window_z_score _ _ _ c); [lia|done..].
  - destruct (detection zt vm s df Hm)
      as (high & low & volume & l & s' & Hh & Hl & Hv & Hrun & _ & Ha & Hout
          & Hwf & Hmv & Hlz & Hlv).
    set (z := z_series 30 (needle_series high low)) in *.
    set (mask := fat_finger_mask z volume zt vm) in *.
    assert (Hpass : ∀ i, i ∈ kept mask ↔ passes zt vm z volume i).
    { intros i. rewrite elem_of_kept. apply mask_passes. congruence. }
    eexists l, s', _, _, _, z, volume, (kept mask).
    split; [exact Hrun|]. split; [exact Ha|]. split; [exact Hout|].
    split; [apply with_metrics_needle_pct|].
    split; [apply with_metrics_z_score|].
    split; [exact Hmv|]. split; [exact Hpass|].
    split.
    { apply select_rows_wf; [done|].
      unfold mask. rewrite fat_finger_mask_length by congruence. done. }
    intros i c Hi Hall. rewrite Hpass. apply nan_z_never_passes.
    by apply (identical_window_z_score 30 i _ c); [lia|done..].
Qed.

(** An instance: thirty bars of one range. *)
Lemma identical_window_z_score_is_undefined_witness :
  holds_market_data flat_state (feed_of flat_bars) ∧ 1 < 30 ∧
  ∃ l s' m needle mean std z,
     _calculate_metrics 30 flat_state = (Ok l, s') ∧
     heap s' !! l = Some m ∧
     columns m !! "needle_pct" = Some needle ∧
     columns m !! "rolling_mean" = Some mean ∧
     columns m !! "rolling_std" = Some std ∧
     columns m !! "z_score" = Some z ∧
     ∀ i c, (Z.to_nat 30 ≤ i + 1)%nat →
       (∀ j, (i + 1 - Z.to_nat 30 ≤ j ≤ i)%nat → needle !! j = Some (Fin c)) →
       (∃ mu, mean !! i = Some (Fin mu) ∧ (mu == c)%Q) ∧
       std !! i = Some (Fin 0) ∧
       z !! i = Some NaN.
Proof.
  split; [exact flat_state_holds|]. split; [lia|].
  apply (identical_window_z_score_is_undefined 30 (Fin 5) (Fin 5) _ _
           flat_state_holds). lia.
Defined.

(** ** The pipeline *)

Lemma try_except_ok {A} (body : M A) handler s a s' :
  body s = (Ok a, s') → try_except body handler s = (Ok a, s').
Proof. intros H. unfold try_except. by rewrite H. Qed.

Lemma try_except_raise {A} (body : M A) handler s e s' :
  body s = (Raise e, s') → try_except body handler s = handler e s'.
Proof. intros H. unfold try_except. by rewrite H. Qed.

Lemma run_getitem_columns {B} l cols df (k : loc → M B) s :
  heap s !! l = Some df →
  Forall (λ c, is_Some (columns df !! c)) cols →
  (getitem_columns l cols ≫= k) s =
  k (fresh (dom (heap s)))
    (set_heap (<[fresh (dom (heap s)) :=
                   MkFrame (index df) (filter (λ kv, kv.1 ∈ cols) (columns df))]>
                 (heap s)) s).
Proof.
  intros H Hc.
  assert (Hf : filter (λ c, columns df !! c = None) cols = []).
  { induction Hc as [|c cs [x Hx] _ IH]; [done|].
    rewrite filter_cons_False; [done|]. by rewrite Hx. }
  unfold getitem_columns. unfold mbind, M_bind, deref, alloc. rewrite H.
  by rewrite Hf.
Qed.

Lemma run_tail {B} l df (k : loc → M B) s :
  heap s !! l = Some df →
  (tail l ≫= k) s =
  k (fresh (dom (heap s)))
    (set_heap (<[fresh (dom (heap s)) :=
                   MkFrame (last_rows 5 (index df)) (last_rows 5 <$> columns df)]>
                 (heap s)) s).
Proof.
  intros H. unfold tail. unfold mbind, M_bind, deref, alloc. by rewrite H.
Qed.

Lemma report_run render now results s a :
  heap s !! results = Some a → self_anomalies s = results →
  Forall (λ c, is_Some (columns a !! c)) ["High"; "Low"; "Volume"; "z_score"] →
  let cols := MkFrame (index a)
                (filter (λ kv, kv.1 ∈ ["High"; "Low"; "Volume"; "z_score"])
                   (columns a)) in
  let shown := MkFrame (last_rows 5 (index cols)) (last_rows 5 <$> columns cols) in
  let filename := "Sentinel_Audit_" +:+ replace_char "-" "_" (self_ticker s)
                  +:+ "_" +:+ now +:+ ".csv" in
  (report results render now s).1 = Ok tt ∧
  trace (report results render now s).2 =
    if frame_empty a then
      Stdout "Status: System Nominal. No execution errors detected."
      :: Stdout report_header :: trace s
    else
      Stdout ("[✓] BrilionX Audit Report generated: " +:+ filename)
      :: ToCsv filename a
      :: Stdout (render shown)
      :: Stdout ("CRITICAL: " +:+ pretty (length (index a))
                 +:+ " Fat-Finger event(s) identified!")
      :: Stdout report_header :: trace s.
Proof.
  intros Ha Hself Hcols cols shown filename. unfold report.
  rewrite run_print. erewrite run_deref by exact Ha.
  destruct (frame_empty a) eqn:He; cbn [negb]; [done|].
  rewrite run_print.
  erewrite run_getitem_columns by (first [exact Ha | exact Hcols]).
  fold cols.
  set (s1 := set_trace _ (set_trace _ s)).
  assert (Hh1 : heap s1 = heap s) by reflexivity.
  set (l1 := fresh (dom (heap s1))).
  assert (Hl1 : l1 ≠ results).
  { intros Heq. pose proof (fresh_heap (heap s1)) as Hn. fold l1 in Hn.
    rewrite Heq, Hh1, Ha in Hn. done. }
  erewrite run_tail by (simpl; apply lookup_insert_eq). fold shown.
  set (s2 := set_heap _ s1).
  assert (Hh2 : heap s2 = <[l1 := cols]> (heap s)) by reflexivity.
  set (l2 := fresh (dom (heap s2))).
  assert (Hl2 : l2 ≠ results).
  { intros Heq. pose proof (fresh_heap (heap s2)) as Hn. fold l2 in Hn.
    rewrite Heq, Hh2, lookup_insert_ne, Ha in Hn; done. }
  erewrite run_deref by (simpl; apply lookup_insert_eq).
  rewrite run_print.
  set (s3 := set_trace _ _).
  assert (Ha' : heap s3 !! self_anomalies s3 = Some a).
  { unfold s3. simpl. rewrite Hself.
    rewrite lookup_insert_ne by done. fold l1.
    rewrite lookup_insert_ne by done. exact Ha. }
  rewrite (export_report_run now "csv" s3 a Ha'), He. done.
Qed.

(** The report on the spike batch after a detection with both thresholds
    at 5, which keeps one row. *)
Example report_of_a_flagged_bar :
  let r := report (self_anomalies spike_detected_state) (λ _, "(rows)")
             "20260101_120000" spike_detected_state in
  r.1 = Ok tt ∧
  printed (trace r.2)
    = ["[✓] BrilionX Audit Report generated: Sentinel_Audit_BTC_USD_20260101_120000.csv";
       "(rows)";
       "CRITICAL: 1 Fat-Finger event(s) identified!";
       report_header] ++ printed (trace spike_detected_state) ∧
  written (trace r.2) = ["Sentinel_Audit_BTC_USD_20260101_120000.csv"].
Proof. split; [|split]; vm_compute; reflexivity. Qed.



(** What the script prints for the spike batch. *)
Example main_on_the_spike_batch :
  printed (trace (main (λ _ _ _, feed_of spike_bars) (λ _, "(rows)")
                    "20260101_120000").2)
  = ["Status: System Nominal. No execution errors detected.";
     report_header;
     "[*] BrilionX Sentinel: Ingesting live feed for BTC-USD..."].
Proof. vm_compute. reflexivity. Qed.
